(** * The signup / OTP / session coordination logic of the application

    A shallow embedding of
      - [src/contexts/AuthContext.tsx]  (module [AuthContext]),
      - [src/pages/OtpVerification.tsx] (module [OtpVerification]),
      - [src/App.tsx]                   (module [App]),
    followed by the properties of the specification that concern them.

    The code is asynchronous glue over a hosted identity provider, the
    browser's local storage and React's state hooks.  It is modelled with
    explicit state passing: a [World] holds the local storage, the pending
    timers, the provider's listener registry, the state of the two stateful
    components and the trace of every effect performed so far.  An [async]
    function is a computation in the monad [M]: a resolved promise is a
    [Normal] completion, a rejected promise (or a [throw]) is a [Throw]
    completion, and [await] is the monadic bind. *)

From stdpp Require Import base gmap strings list.
From Stdlib Require Import ZArith.

Set Warnings "-register-all".

Local Open Scope Z_scope.
Local Open Scope string_scope.

(** ** JavaScript values, exceptions and completions *)

Module Js.

(** Values of type [any]: what [JSON.parse] returns and what is handed
    to the provider as password and profile. *)
Inductive value :=
| VUndefined
| VNull
| VBool (b : bool)
| VNum (n : Z)
| VStr (s : string)
| VArr (items : list value)
| VObj (fields : list (string * value)).

(** The error object of the provider ([AuthError] of the SDK). *)
Record AuthError := { ae_message : string; ae_status : Z }.

(** Thrown values. [Error] is [new Error(msg)] raised by the
    application itself; [SyntaxError] and [TypeError] are raised by the
    language; [ProviderError] is an error object coming from the
    provider. *)
Inductive Exn :=
| Error (msg : string)
| SyntaxError (msg : string)
| TypeError (msg : string)
| ProviderError (e : AuthError).

(** [err.message] *)
Definition message (e : Exn) : string :=
  match e with
  | Error m | SyntaxError m | TypeError m => m
  | ProviderError a => ae_message a
  end.

(** Truthiness of a string: [!s] holds exactly for the empty string. *)
Definition truthy (s : string) : bool := bool_decide (s ≠ "").

(** [a || b] on strings *)
Definition or_else (a b : string) : string := if truthy a then a else b.

Inductive Completion (A : Type) :=
| Normal (a : A)
| Throw (e : Exn).
Arguments Normal {A} a.
Arguments Throw {A} e.

Fixpoint assoc (k : string) (fields : list (string * value)) : value :=
  match fields with
  | [] => VUndefined
  | (k', v) :: rest => if decide (k' = k) then v else assoc k rest
  end.

(** [v.k]: reading a property of [null] or [undefined] raises a
    [TypeError]; a property an object does not have is [undefined]. *)
Definition get_prop (v : value) (k : string) : Completion value :=
  match v with
  | VUndefined | VNull =>
      Throw (TypeError ("Cannot read properties of null (reading '" +:+ k +:+ "')"))
  | VObj fields => Normal (assoc k fields)
  | _ => Normal VUndefined
  end.

End Js.
Export Js.

(** ** The hosted identity provider, as the code uses it *)

Module Supabase.

Record User := { user_id : string; user_email : string }.
Record Session := { access_token : string; session_user : User }.

(** One constructor per SDK entry point called by the application,
    carrying the arguments the application passes. *)
Inductive Request :=
| GetSession
| SignUp (email : string) (password : value) (data : value) (emailRedirectTo : string)
| SignInWithOtp (email : string) (shouldCreateUser : bool)
| VerifyOtp (email token type : string)
| SignInWithPassword (email password : string)
| SignOut
| ResetPasswordForEmail (email redirectTo : string).

(** The fields of a resolved response that the application reads:
    [data.session], [data] and [error]. *)
Record Resolved := {
  data_session : option Session;
  data : value;
  error : option AuthError
}.

Inductive Response :=
| Resolve (r : Resolved)
| Reject (e : Exn).

(** The failure a response carries, if any: a rejected promise, or a
    resolved one whose [error] field is set. *)
Definition failure (r : Response) : option Exn :=
  match r with
  | Reject e => Some e
  | Resolve x => ProviderError <$> error x
  end.

End Supabase.
Export Supabase.

(** ** The browser and React runtime *)

Module Runtime.

(** [location] of the router and the navigation states used in the
    repository: [{ email }], [{ accountCreated }], [{ from: location }]. *)
Inductive Location :=
| MkLocation (pathname : string) (state : NavState)
with NavState :=
| NoState
| StEmail (email : string)
| StAccountCreated (b : bool)
| StFrom (from : Location).

(** [location.state && location.state.email] *)
Definition state_email (l : Location) : option string :=
  match l with
  | MkLocation _ (StEmail e) => if truthy e then Some e else None
  | _ => None
  end.

Inductive TimerAction :=
| TSetCooldown (n : Z)
| TNavigate (to : string) (st : NavState).

Record Timer := { delay : Z; action : TimerAction }.

(** What an effect hands back to React to run on teardown. *)
Inductive Cleanup :=
| Unsubscribe (sub : nat)
| ClearTimeout (timer : nat).

Inductive Level := LLog | LError.

Inductive LogArg :=
| ArgNone
| ArgStr (s : string)
| ArgVal (v : value)
| ArgExn (e : Exn).

(** Calls of the state setters of the two components. *)
Inductive Update :=
| SetUser (u : option User)
| SetSession (s : option Session)
| SetAuthLoading (b : bool)
| SetOtp (s : string)
| SetEmail (s : string)
| SetLoading (b : bool)
| SetError (s : string)
| SetMessage (s : string)
| SetCooldown (n : Z).

(** Every effect the code performs is appended to the trace. A provider
    call is recorded with the response it received. *)
Inductive Event :=
| Console (lvl : Level) (label : string) (arg : LogArg)
| StorageGet (key : string)
| StorageSet (key val : string)
| StorageRemove (key : string)
| Call (req : Request) (resp : Response)
| Subscribed (sub : nat)
| Unsubscribed (sub : nat)
| State (u : Update)
| TimeoutSet (timer : nat) (t : Timer)
| TimeoutCleared (timer : nat)
| Navigated (to : string) (st : NavState).

(** State of [AuthProvider]: [user], [session], [loading]. *)
Record AuthState := {
  user : option User;
  session : option Session;
  auth_loading : bool
}.

(** State of [OtpVerification]. *)
Record PageState := {
  otp : string;
  email : string;
  loading : bool;
  error_msg : string;
  message_msg : string;
  cooldown : Z
}.

Record World := {
  localStorage : gmap string string;
  trace : list Event;
  timers : gmap nat Timer;
  listeners : gset nat;
  next_id : nat;
  auth : AuthState;
  auth_cleanup : option Cleanup;
  page : PageState;
  page_effect : option (Z * option Cleanup)
}.

(** What lies outside the repository: the provider (its response to a
    request may depend on everything that happened before),
    [JSON.parse] and [window.location.origin]. *)
Record Host := {
  respond : list Event → Request → Response;
  JSON_parse : string → Completion value;
  origin : string
}.

Definition with_localStorage (f : gmap string string → gmap string string) (w : World) : World :=
  {| localStorage := f (localStorage w); trace := trace w; timers := timers w;
     listeners := listeners w; next_id := next_id w; auth := auth w;
     auth_cleanup := auth_cleanup w; page := page w; page_effect := page_effect w |}.

Definition emit (e : Event) (w : World) : World :=
  {| localStorage := localStorage w; trace := trace w ++ [e]; timers := timers w;
     listeners := listeners w; next_id := next_id w; auth := auth w;
     auth_cleanup := auth_cleanup w; page := page w; page_effect := page_effect w |}.

Definition with_timers (f : gmap nat Timer → gmap nat Timer) (w : World) : World :=
  {| localStorage := localStorage w; trace := trace w; timers := f (timers w);
     listeners := listeners w; next_id := next_id w; auth := auth w;
     auth_cleanup := auth_cleanup w; page := page w; page_effect := page_effect w |}.

Definition with_listeners (f : gset nat → gset nat) (w : World) : World :=
  {| localStorage := localStorage w; trace := trace w; timers := timers w;
     listeners := f (listeners w); next_id := next_id w; auth := auth w;
     auth_cleanup := auth_cleanup w; page := page w; page_effect := page_effect w |}.

Definition bump_id (w : World) : World :=
  {| localStorage := localStorage w; trace := trace w; timers := timers w;
     listeners := listeners w; next_id := S (next_id w); auth := auth w;
     auth_cleanup := auth_cleanup w; page := page w; page_effect := page_effect w |}.

Definition with_auth (f : AuthState → AuthState) (w : World) : World :=
  {| localStorage := localStorage w; trace := trace w; timers := timers w;
     listeners := listeners w; next_id := next_id w; auth := f (auth w);
     auth_cleanup := auth_cleanup w; page := page w; page_effect := page_effect w |}.

Definition with_auth_cleanup (c : option Cleanup) (w : World) : World :=
  {| localStorage := localStorage w; trace := trace w; timers := timers w;
     listeners := listeners w; next_id := next_id w; auth := auth w;
     auth_cleanup := c; page := page w; page_effect := page_effect w |}.

Definition with_page (f : PageState → PageState) (w : World) : World :=
  {| localStorage := localStorage w; trace := trace w; timers := timers w;
     listeners := listeners w; next_id := next_id w; auth := auth w;
     auth_cleanup := auth_cleanup w; page := f (page w); page_effect := page_effect w |}.

Definition with_page_effect (e : option (Z * option Cleanup)) (w : World) : World :=
  {| localStorage := localStorage w; trace := trace w; timers := timers w;
     listeners := listeners w; next_id := next_id w; auth := auth w;
     auth_cleanup := auth_cleanup w; page := page w; page_effect := e |}.

(** *** The monad of effectful, possibly throwing computations *)

Definition M (A : Type) : Type := World → Completion A * World.

#[global] Instance M_ret : MRet M := λ A a w, (Normal a, w).

#[global] Instance M_bind : MBind M := λ A B f m w,
  match m w with
  | (Normal a, w') => f a w'
  | (Throw e, w') => (Throw e, w')
  end.

Definition throw {A} (e : Exn) : M A := λ w, (Throw e, w).

(** [try { body } catch (err) { handler }] *)
Definition try_catch {A} (body : M A) (handler : Exn → M A) : M A := λ w,
  match body w with
  | (Normal a, w') => (Normal a, w')
  | (Throw e, w') => handler e w'
  end.

(** [try { body } finally { fin }]: [fin] runs on both exits and the
    completion of [body] is kept unless [fin] itself throws. *)
Definition try_finally {A} (body : M A) (fin : M unit) : M A := λ w,
  match body w with
  | (c, w') =>
      match fin w' with
      | (Normal _, w'') => (c, w'')
      | (Throw e, w'') => (Throw e, w'')
      end
  end.

Definition lift {A} (c : Completion A) : M A := λ w, (c, w).

Definition perform (e : Event) : M unit := λ w, (Normal tt, emit e w).

Definition console_log (label : string) (arg : LogArg) : M unit :=
  perform (Console LLog label arg).

Definition console_error (label : string) (arg : LogArg) : M unit :=
  perform (Console LError label arg).

(** [localStorage.getItem(k)]: [null] when the key is absent. *)
Definition getItem (k : string) : M (option string) := λ w,
  (Normal (localStorage w !! k), emit (StorageGet k) w).

Definition setItem (k v : string) : M unit := λ w,
  (Normal tt, emit (StorageSet k v) (with_localStorage (insert k v) w)).

Definition removeItem (k : string) : M unit := λ w,
  (Normal tt, emit (StorageRemove k) (with_localStorage (delete k) w)).

(** [setTimeout(action, delay)] returns the identifier of the timer. *)
Definition setTimeout (act : TimerAction) (ms : Z) : M nat := λ w,
  let id := next_id w in
  let t := {| delay := ms; action := act |} in
  (Normal id, emit (TimeoutSet id t) (bump_id (with_timers (insert id t) w))).

Definition clearTimeout (id : nat) : M unit := λ w,
  (Normal tt, emit (TimeoutCleared id) (with_timers (delete id) w)).

Definition navigate (to : string) (st : NavState) : M unit :=
  perform (Navigated to st).

Definition apply_update (u : Update) (w : World) : World :=
  match u with
  | SetUser x =>
      with_auth (λ a, {| user := x; session := session a; auth_loading := auth_loading a |}) w
  | SetSession x =>
      with_auth (λ a, {| user := user a; session := x; auth_loading := auth_loading a |}) w
  | SetAuthLoading b =>
      with_auth (λ a, {| user := user a; session := session a; auth_loading := b |}) w
  | SetOtp s =>
      with_page (λ p, {| otp := s; email := email p; loading := loading p;
                         error_msg := error_msg p; message_msg := message_msg p;
                         cooldown := cooldown p |}) w
  | SetEmail s =>
      with_page (λ p, {| otp := otp p; email := s; loading := loading p;
                         error_msg := error_msg p; message_msg := message_msg p;
                         cooldown := cooldown p |}) w
  | SetLoading b =>
      with_page (λ p, {| otp := otp p; email := email p; loading := b;
                         error_msg := error_msg p; message_msg := message_msg p;
                         cooldown := cooldown p |}) w
  | SetError s =>
      with_page (λ p, {| otp := otp p; email := email p; loading := loading p;
                         error_msg := s; message_msg := message_msg p;
                         cooldown := cooldown p |}) w
  | SetMessage s =>
      with_page (λ p, {| otp := otp p; email := email p; loading := loading p;
                         error_msg := error_msg p; message_msg := s;
                         cooldown := cooldown p |}) w
  | SetCooldown n =>
      with_page (λ p, {| otp := otp p; email := email p; loading := loading p;
                         error_msg := error_msg p; message_msg := message_msg p;
                         cooldown := n |}) w
  end.

(** A state setter: the new value is what the next render sees. The
    handlers below read the variables of the render that created them
    from a snapshot, never from the updated state. *)
Definition set_state (u : Update) : M unit := λ w,
  (Normal tt, emit (State u) (apply_update u w)).

(** [await supabase.auth.<request>]: the response is the provider's
    answer to the request after everything recorded so far. *)
Definition call (host : Host) (req : Request) : M Resolved := λ w,
  let resp := respond host (trace w) req in
  let w' := emit (Call req resp) w in
  match resp with
  | Resolve r => (Normal r, w')
  | Reject e => (Throw e, w')
  end.

(** [supabase.auth.onAuthStateChange(callback)] registers the callback
    and returns its subscription. *)
Definition onAuthStateChange : M nat := λ w,
  let id := next_id w in
  (Normal id, emit (Subscribed id) (bump_id (with_listeners (λ s, {[id]} ∪ s) w))).

(** [subscription.unsubscribe()] *)
Definition unsubscribe (id : nat) : M unit := λ w,
  (Normal tt, emit (Unsubscribed id) (with_listeners (λ s, s ∖ {[id]}) w)).

Definition run_cleanup (c : Cleanup) : M unit :=
  match c with
  | Unsubscribe id => unsubscribe id
  | ClearTimeout id => clearTimeout id
  end.

(** The events and provider calls a run added to the trace. *)
Definition since (w w' : World) : list Event :=
  drop (length (trace w)) (trace w').

Definition calls_of (tr : list Event) : list (Request * Response) :=
  omap (λ e, match e with Call req resp => Some (req, resp) | _ => None end) tr.

Definition requests_of (tr : list Event) : list Request := (calls_of tr).*1.

End Runtime.
Export Runtime.

(** ** src/contexts/AuthContext.tsx *)

Module AuthContext.
Section WithHost.
Context (host : Host).

(** [useState(null)], [useState(null)], [useState(true)] *)
Definition initial_state : AuthState :=
  {| user := None; session := None; auth_loading := true |}.

(** Calling an [async] function without awaiting it: the caller goes on
    whatever the promise settles to. *)
Definition unawaited {A} (m : M A) : M unit := λ w, (Normal tt, (m w).2).

(** The callback handed to [onAuthStateChange]. *)
Definition on_auth_change (event : string) (s : option Session) : M unit :=
  console_log "Auth state changed:" (ArgStr event);;
  set_state (SetSession s);;
  set_state (SetUser (session_user <$> s)).

(** [checkUser]: the [async] function declared inside the effect. Its
    last statement returns the unsubscribing closure, so that closure is
    the value its promise resolves to. *)
Definition checkUser : M Cleanup :=
  try_finally
    (try_catch
       (r ← call host GetSession;
        set_state (SetSession (data_session r));;
        set_state (SetUser (session_user <$> data_session r)))
       (λ error, console_error "Error checking session:" (ArgExn error)))
    (set_state (SetAuthLoading false));;
  sub ← onAuthStateChange;
  mret (Unsubscribe sub).

(** The function given to [useEffect(..., [])]: it declares [checkUser],
    calls it as the statement [checkUser();] and ends there, so it
    returns [undefined]. *)
Definition effect : M (option Cleanup) :=
  unawaited checkUser;;
  mret None.

(** React's contract for [useEffect(f, [])]: [f] runs once after the
    first render and what it returned, if a function, runs on unmount. *)
Definition mount (w : World) : World :=
  let w0 := with_auth (λ _, initial_state) w in
  match effect w0 with
  | (Normal c, w1) => with_auth_cleanup c w1
  | (Throw _, w1) => w1
  end.

Definition unmount (w : World) : World :=
  match auth_cleanup w with
  | Some c => with_auth_cleanup None (run_cleanup c w).2
  | None => w
  end.

(** The provider pushes an auth event: it invokes the callback of every
    subscription that is registered. The callback of [checkUser] is the
    only one the application ever registers. *)
Definition notify (event : string) (s : option Session) (w : World) : World :=
  foldr (λ _ w', (on_auth_change event s w').2) w (elements (listeners w)).

Fixpoint notify_all (events : list (string * option Session)) (w : World) : World :=
  match events with
  | [] => w
  | (event, s) :: rest => notify_all rest (notify event s w)
  end.

Definition signUp (email password name : string) : M value :=
  console_log "Signing up user with email:" (ArgStr email);;
  r ← call host (SignUp email (VStr password) (VObj [("name", VStr name)])
                   (origin host +:+ "/verify"));
  match error r with
  | Some e =>
      console_error "Signup error:" (ArgExn (ProviderError e));;
      throw (ProviderError e)
  | None =>
      console_log "Signup successful, verification email should be sent" ArgNone;;
      mret (data r)
  end.

(** Step 1: send the one-time code. *)
Definition sendSignUpOTP (email : string) : M unit :=
  console_log "Sending signup OTP to:" (ArgStr email);;
  try_catch
    (setItem "signupEmail" email;;
     r ← call host (SignInWithOtp email false);
     match error r with
     | Some e =>
         console_error "Error sending OTP:" (ArgExn (ProviderError e));;
         throw (ProviderError e)
     | None => console_log "OTP sent successfully to:" (ArgStr email)
     end)
    (λ error,
       console_error "Exception sending OTP:" (ArgExn error);;
       throw error).

(** Step 2: verify the code and create the account. *)
Definition verifyOTPAndSignUp (email token : string) (password userData : value) : M value :=
  console_log "Verifying OTP and creating account for:" (ArgStr email);;
  try_catch
    (v ← call host (VerifyOtp email token "email");
     match error v with
     | Some verifyError =>
         console_error "OTP verification error:" (ArgExn (ProviderError verifyError));;
         throw (ProviderError verifyError)
     | None =>
         console_log "OTP verified successfully, creating account" ArgNone;;
         s ← call host (SignUp email password userData (origin host +:+ "/login"));
         match error s with
         | Some signUpError =>
             console_error "Account creation error:" (ArgExn (ProviderError signUpError));;
             throw (ProviderError signUpError)
         | None =>
             console_log "Account created successfully:" (ArgVal (data s));;
             removeItem "signupEmail";;
             mret (data s)
         end
     end)
    (λ error,
       console_error "Exception in verification and signup:" (ArgExn error);;
       throw error).

Definition signIn (email password : string) : M unit :=
  console_log "Signing in user with email:" (ArgStr email);;
  r ← call host (SignInWithPassword email password);
  match error r with
  | Some e =>
      console_error "Sign in error:" (ArgExn (ProviderError e));;
      throw (ProviderError e)
  | None => console_log "Sign in successful" ArgNone
  end.

Definition signOut : M unit :=
  console_log "Signing out user" ArgNone;;
  r ← call host SignOut;
  match error r with
  | Some e =>
      console_error "Sign out error:" (ArgExn (ProviderError e));;
      throw (ProviderError e)
  | None => console_log "Sign out successful" ArgNone
  end.

Definition resetPassword (email : string) : M unit :=
  console_log "Resetting password for email:" (ArgStr email);;
  r ← call host (ResetPasswordForEmail email (origin host +:+ "/reset-password"));
  match error r with
  | Some e =>
      console_error "Reset password error:" (ArgExn (ProviderError e));;
      throw (ProviderError e)
  | None => console_log "Password reset email sent" ArgNone
  end.

Definition verifyOtp (email token : string) : M unit :=
  console_log ("Verifying OTP for email: " +:+ email) ArgNone;;
  r ← call host (VerifyOtp email token "signup");
  match error r with
  | Some e =>
      console_error "OTP verification error:" (ArgExn (ProviderError e));;
      throw (ProviderError e)
  | None => console_log "OTP verification successful" ArgNone
  end.

End WithHost.
End AuthContext.

(** ** src/pages/OtpVerification.tsx *)

Module OtpVerification.
Section WithHost.
Context (host : Host).

(** The six [useState] calls; in particular [useState(0)] for the
    cooldown. *)
Definition initial_state : PageState :=
  {| otp := ""; email := ""; loading := false; error_msg := "";
     message_msg := ""; cooldown := 0 |}.

Definition missing_intent : string := "Signup data not found. Please try again.".
Definition fields_required : string := "Email and verification code are required".
Definition email_required : string := "Email is required to resend verification code".
Definition account_created : string := "Account created successfully! Redirecting to login...".

(** The body of [useEffect(..., [location, navigate, cooldown])], run
    with the variables of the render [snap]. It returns the cleanup that
    clears the timer it started, if it started one. *)
Definition effect (location : Location) (snap : PageState) : M (option Cleanup) :=
  storedEmail ← getItem "signupEmail";
  match state_email location, storedEmail with
  | Some e, _ =>
      set_state (SetEmail e);;
      set_state (SetMessage "Verification code has been sent. Please check your inbox and spam folder.")
  | None, Some s =>
      if truthy s then
        set_state (SetEmail s);;
        set_state (SetMessage "Please enter the verification code sent to your email.")
      else navigate "/signup" NoState
  | None, None => navigate "/signup" NoState
  end;;
  if bool_decide (0 < cooldown snap) then
    timer ← setTimeout (TSetCooldown (cooldown snap - 1)) 1000;
    mret (Some (ClearTimeout timer))
  else mret None.

Definition handleVerify (snap : PageState) : M unit :=
  if negb (truthy (email snap)) || negb (truthy (otp snap)) then
    set_state (SetError fields_required)
  else
    set_state (SetLoading true);;
    set_state (SetError "");;
    try_finally
      (try_catch
         (console_log ("Verifying OTP for email: " +:+ email snap) ArgNone;;
          signupDataStr ← getItem "signupData";
          str ← match signupDataStr with
                | Some s => if truthy s then mret s else throw (Error missing_intent)
                | None => throw (Error missing_intent)
                end;
          signupData ← lift (JSON_parse host str);
          password ← lift (get_prop signupData "password");
          name ← lift (get_prop signupData "name");
          AuthContext.verifyOTPAndSignUp host (email snap) (otp snap) password
            (VObj [("name", name)]);;
          set_state (SetMessage account_created);;
          removeItem "signupData";;
          removeItem "signupEmail";;
          setTimeout (TNavigate "/login" (StAccountCreated true)) 2000;;
          mret tt)
         (λ err,
            console_error "Verification error:" (ArgExn err);;
            set_state (SetError (or_else (message err) "Failed to verify email"))))
      (set_state (SetLoading false)).

Definition handleResendOtp (snap : PageState) : M unit :=
  if bool_decide (0 < cooldown snap) then mret tt
  else if negb (truthy (email snap)) then
    set_state (SetError email_required)
  else
    set_state (SetLoading true);;
    set_state (SetError "");;
    try_finally
      (try_catch
         (console_log ("Resending OTP to email: " +:+ email snap) ArgNone;;
          AuthContext.sendSignUpOTP host (email snap);;
          set_state (SetMessage "Verification code resent! Please check your inbox and spam folder.");;
          set_state (SetCooldown 60))
         (λ err,
            console_error "Error resending OTP:" (ArgExn err);;
            set_state (SetError (or_else (message err) "Failed to resend verification code"))))
      (set_state (SetLoading false)).

(** *** React's scheduling of the page

    An effect runs after the first render and after every render in which
    one of its dependencies changed, the cleanup of its previous run
    first. [location] and [navigate] do not change while the page stays
    on screen, so the dependency that decides is [cooldown]. *)

Definition run_effect (location : Location) (w : World) : World :=
  match effect location (page w) w with
  | (Normal c, w') => with_page_effect (Some (cooldown (page w), c)) w'
  | (Throw _, w') => w'
  end.

Definition rerender (location : Location) (w : World) : World :=
  match page_effect w with
  | Some (deps, c) =>
      if bool_decide (deps = cooldown (page w)) then w
      else run_effect location
             match c with
             | Some c => (run_cleanup c w).2
             | None => w
             end
  | None => w
  end.

Definition mount (location : Location) (w : World) : World :=
  run_effect location (with_page (λ _, initial_state) w).

(** What can happen to the page: the form is submitted, the resend
    button is clicked, an input changes, the start-over button is
    clicked, a pending timer fires. *)
Inductive Action :=
| Submit
| ClickResend
| ChangeOtp (s : string)
| ChangeEmail (s : string)
| StartOver
| Fire (timer : nat).

Definition run_timer (a : TimerAction) : M unit :=
  match a with
  | TSetCooldown n => set_state (SetCooldown n)
  | TNavigate to st => navigate to st
  end.

Definition fire (id : nat) : M unit := λ w,
  match timers w !! id with
  | Some t => run_timer (action t) (with_timers (delete id) w)
  | None => (Normal tt, w)
  end.

(** A handler runs with the variables of the latest render. *)
Definition handle (a : Action) (snap : PageState) : M unit :=
  match a with
  | Submit => handleVerify snap
  | ClickResend => handleResendOtp snap
  | ChangeOtp s => set_state (SetOtp s)
  | ChangeEmail s => set_state (SetEmail s)
  | StartOver => navigate "/signup" NoState
  | Fire id => fire id
  end.

(** A navigation is recorded in the trace and nothing more: the router
    taking the page off the screen, and the cleanup React runs then, are
    outside this model, which follows the page for as long as it stays
    on screen. *)
Definition dispatch (location : Location) (a : Action) (w : World) : World :=
  rerender location (handle a (page w) w).2.

(** One second passes: the timer started by the last run of the effect
    fires, if there is one. *)
Definition tick (location : Location) (w : World) : World :=
  match page_effect w with
  | Some (_, Some (ClearTimeout id)) => dispatch location (Fire id) w
  | _ => w
  end.

Fixpoint ticks (location : Location) (n : nat) (w : World) : World :=
  match n with
  | O => w
  | S k => ticks location k (tick location w)
  end.

(** The page goes through a sequence of actions, first to last. *)
Fixpoint run (location : Location) (acts : list Action) (w : World) : World :=
  match acts with
  | [] => w
  | a :: rest => run location rest (dispatch location a w)
  end.

End WithHost.
End OtpVerification.

(** ** src/App.tsx *)

Module App.

Inductive Page :=
| Home | InitialWeightEntry | RemainingWeightEntry | DataPage | FoodAnalysis
| BookingEntry | Login | Signup | OtpVerificationPage | PasswordReset.

Inductive Element :=
| Spinner
| Navigate (to : string) (st : NavState) (replace : bool)
| View (p : Page)
| Fragment (children : Element).

(** [ProtectedRoute]: [user] and [loading] come from [useAuth()],
    [location] from [useLocation()]. *)
Definition ProtectedRoute (a : AuthState) (location : Location) (children : Element) : Element :=
  if auth_loading a then Spinner
  else match user a with
       | None => Navigate "/login" (StFrom location) true
       | Some _ => Fragment children
       end.

(** The [<Routes>] table of [App]. *)
Definition routes (a : AuthState) (location : Location) : list (string * Element) :=
  [ ("/", View Home);
    ("/login", View Login);
    ("/signup", View Signup);
    ("/verify", View OtpVerificationPage);
    ("/reset-password", View PasswordReset);
    ("/initial-weight", ProtectedRoute a location (View InitialWeightEntry));
    ("/remaining-weight", ProtectedRoute a location (View RemainingWeightEntry));
    ("/data", ProtectedRoute a location (View DataPage));
    ("/food-analysis", ProtectedRoute a location (View FoodAnalysis));
    ("/booking", ProtectedRoute a location (View BookingEntry));
    ("/old-path", Navigate "/new-path" NoState true) ].

(** The page an element puts on screen, if any. *)
Fixpoint shows (e : Element) : option Page :=
  match e with
  | View p => Some p
  | Fragment children => shows children
  | Spinner | Navigate _ _ _ => None
  end.

Definition protected_views : list (string * Page) :=
  [ ("/initial-weight", InitialWeightEntry);
    ("/remaining-weight", RemainingWeightEntry);
    ("/data", DataPage);
    ("/food-analysis", FoodAnalysis);
    ("/booking", BookingEntry) ].

End App.

(** ** Sample hosts and worlds, used to run the model on concrete inputs *)

Module Samples.

Definition empty_world : World :=
  {| localStorage := ∅; trace := []; timers := ∅; listeners := ∅; next_id := 0;
     auth := AuthContext.initial_state; auth_cleanup := None;
     page := OtpVerification.initial_state; page_effect := None |}.

Definition ok_response : Response :=
  Resolve {| data_session := None; data := VNull; error := None |}.

Definition error_response (msg : string) : Response :=
  Resolve {| data_session := None; data := VNull;
             error := Some {| ae_message := msg; ae_status := 400 |} |}.

Definition quote : string := String (Ascii.ascii_of_nat 34) EmptyString.
Definition quoted (s : string) : string := quote +:+ s +:+ quote.

(** The text the signup page stores under ['signupData']. *)
Definition intent_json : string :=
  "{" +:+ quoted "email" +:+ ":" +:+ quoted "a@b.com" +:+ ","
      +:+ quoted "password" +:+ ":" +:+ quoted "s3cret" +:+ ","
      +:+ quoted "name" +:+ ":" +:+ quoted "Ann" +:+ "}".

Definition intent_value : value :=
  VObj [("email", VStr "a@b.com"); ("password", VStr "s3cret"); ("name", VStr "Ann")].

(** [JSON.parse] restricted to the one text the samples need. *)
Definition parse (s : string) : Completion value :=
  if decide (s = intent_json) then Normal intent_value
  else Throw (SyntaxError "Unexpected end of JSON input").

(** A provider that accepts every request. *)
Definition host_ok : Host :=
  {| respond := λ _ _, ok_response; JSON_parse := parse;
     origin := "https://app.example" |}.

(** A provider that reports an error for every request. *)
Definition host_failing : Host :=
  {| respond := λ _ _, error_response "Service unavailable"; JSON_parse := parse;
     origin := "https://app.example" |}.

(** A provider that rejects every one-time code and accepts the rest. *)
Definition host_wrong_code : Host :=
  {| respond := λ _ req,
       match req with
       | VerifyOtp _ _ _ => error_response "Token has expired or is invalid"
       | _ => ok_response
       end;
     JSON_parse := parse; origin := "https://app.example" |}.

(** A provider whose session lookup is rejected. *)
Definition host_no_network : Host :=
  {| respond := λ _ req,
       match req with
       | GetSession => Reject (TypeError "Failed to fetch")
       | _ => ok_response
       end;
     JSON_parse := parse; origin := "https://app.example" |}.

(** The location the signup page navigates to. *)
Definition verify_location : Location := MkLocation "/verify" (StEmail "a@b.com").

Definition typed (e o : string) (c : Z) : PageState :=
  {| otp := o; email := e; loading := false; error_msg := ""; message_msg := "";
     cooldown := c |}.

Definition with_intent (w : World) : World :=
  with_localStorage (insert "signupData" intent_json) w.

End Samples.

(** ** Observations on traces used to state the properties *)

Module Observe.

Definition accepted (r : Response) : bool :=
  match failure r with
  | None => true
  | Some _ => false
  end.

(** Every provider call of the trace was answered without failure. *)
Definition all_accepted (tr : list Event) : bool :=
  forallb (λ c, accepted c.2) (calls_of tr).

(** [verifyOTPAndSignUp] ran to its end: the verification request and
    then the account-creation request were issued, and both were
    answered without failure. *)
Definition signed_up (tr : list Event) : bool :=
  match calls_of tr with
  | [(VerifyOtp _ _ _, r1); (SignUp _ _ _ _, r2)] => accepted r1 && accepted r2
  | _ => false
  end.

(** The coordinator of the specification has no state variable of its
    own in the code: it is [Completed] when the page announces the
    created account. *)
Definition enters_completed (e : Event) : bool :=
  match e with
  | State (SetMessage m) => bool_decide (m = OtpVerification.account_created)
  | _ => false
  end.

Definition completed_transitions (tr : list Event) : nat :=
  length (filter (λ e, enters_completed e = true) tr).

Definition scheduled (tr : list Event) : list (nat * Timer) :=
  omap (λ e, match e with TimeoutSet id t => Some (id, t) | _ => None end) tr.

Definition is_storage_write (e : Event) : bool :=
  match e with
  | StorageSet _ _ | StorageRemove _ => true
  | _ => false
  end.

Definition storage_writes (tr : list Event) : list Event :=
  filter (λ e, is_storage_write e = true) tr.

Definition is_cooldown_timer (t : Timer) : bool :=
  match action t with
  | TSetCooldown _ => true
  | TNavigate _ _ => false
  end.

(** Every pending cooldown timer is the one the last run of the effect
    started, which its cleanup would clear. *)
Definition tidy (w : World) : Prop :=
  ∀ id t, timers w !! id = Some t → is_cooldown_timer t = true →
    ∃ deps, page_effect w = Some (deps, Some (ClearTimeout id)).

Definition tidy_at (c : option Cleanup) (it : nat * Timer) : bool :=
  negb (is_cooldown_timer it.2)
  || match c with
     | Some (ClearTimeout id) => bool_decide (it.1 = id)
     | _ => false
     end.

(** The effect of the page is up to date with the cooldown: it last ran
    for the current value; exactly when that value is positive it left a
    one-second timer carrying the decremented value, under an identifier
    already handed out; and no other cooldown timer is pending. This is
    the state the page is in after it opened and between two actions. *)
Definition ticking (w : World) : bool :=
  match page_effect w with
  | Some (deps, c) =>
      bool_decide (deps = cooldown (page w))
      && (if bool_decide (0 < deps) then
            match c with
            | Some (ClearTimeout id) =>
                match timers w !! id with
                | Some {| delay := d; action := TSetCooldown n |} =>
                    bool_decide (d = 1000) && bool_decide (n = deps - 1)
                    && bool_decide (id < next_id w)%nat
                | _ => false
                end
            | _ => false
            end
          else
            match c with
            | None => true
            | Some _ => false
            end)
      && forallb (tidy_at c) (map_to_list (timers w))
  | None => false
  end.

(** The action fires a pending cooldown timer: one second of the
    cooldown has passed. *)
Definition is_cooldown_fire (a : OtpVerification.Action) (w : World) : bool :=
  match a with
  | OtpVerification.Fire id =>
      match timers w !! id with
      | Some t => is_cooldown_timer t
      | None => false
      end
  | _ => false
  end.

(** The seconds of cooldown that pass while the page goes through
    [acts] from [w]. *)
Fixpoint elapsed (host : Host) (location : Location)
    (acts : list OtpVerification.Action) (w : World) : nat :=
  match acts with
  | [] => 0
  | a :: rest =>
      (if is_cooldown_fire a w then 1 else 0)
      + elapsed host location rest (OtpVerification.dispatch host location a w)
  end.

(** The requests for a one-time code among the provider calls of a
    trace. *)
Definition is_code_request (r : Request) : bool :=
  match r with
  | SignInWithOtp _ _ => true
  | _ => false
  end.

Definition resend_requests (tr : list Event) : list Request :=
  filter (λ r, is_code_request r = true) (requests_of tr).

(** What an awaited request comes to, the way every operation of the
    gateway treats it: a rejection is thrown on, an [error] field is
    thrown, anything else is the result. *)
Definition settle {A} (resp : Response) (result : Resolved → A) : Completion A :=
  match resp with
  | Reject e => Throw e
  | Resolve r =>
      match error r with
      | Some a => Throw (ProviderError a)
      | None => Normal (result r)
      end
  end.

(** Nothing but the trace differs between the two worlds. *)
Definition untouched (w w' : World) : Prop :=
  localStorage w' = localStorage w ∧ auth w' = auth w ∧ page w' = page w
  ∧ timers w' = timers w ∧ listeners w' = listeners w.

(** An operation that is one request and nothing else. *)
Definition fail_fast {A} (op : M A) (req : Request) (result : Resolved → A) : Prop :=
  ∀ w, ∃ resp,
    calls_of (since w (op w).2) = [(req, resp)]
    ∧ (op w).1 = settle resp result
    ∧ untouched w (op w).2.

(** The email the effect of the verification page settles on: the one
    of the location state, else the stored one, else the one the page
    had. *)
Definition settled_email (location : Location) (storage : gmap string string)
    (current : string) : string :=
  match state_email location, storage !! "signupEmail" with
  | Some e, _ => e
  | None, Some s => if truthy s then s else current
  | None, None => current
  end.

(** The effect finds no email and sends the user back to the signup
    form. *)
Definition no_email_known (location : Location) (storage : gmap string string) : bool :=
  match state_email location, storage !! "signupEmail" with
  | Some _, _ => false
  | None, Some s => negb (truthy s)
  | None, None => true
  end.

(** The message the effect sets when it knows an email. *)
Definition effect_message (location : Location) : string :=
  match state_email location with
  | Some _ => "Verification code has been sent. Please check your inbox and spam folder."
  | None => "Please enter the verification code sent to your email."
  end.

Definition navigations (tr : list Event) : list (string * NavState) :=
  omap (λ e, match e with Navigated to st => Some (to, st) | _ => None end) tr.

(** The session a lookup comes back with: none when it is rejected. *)
Definition found_session (r : Response) : option Session :=
  match r with
  | Resolve x => data_session x
  | Reject _ => None
  end.

(** The session the store holds after a lookup that found [found] and
    the auth events that followed. *)
Definition current_session (found : option Session)
    (events : list (string * option Session)) : option Session :=
  match last events with
  | Some (_, s) => s
  | None => found
  end.

End Observe.
Export Observe.

(** ** Three sentences of the specification, exactly as it states them

    These are the readings that the code does not satisfy; each is
    refuted below at a concrete input, next to the statement that does
    hold. *)

Module AsStated.
Import OtpVerification.

(** Once [sendSignUpOTP] has succeeded and the verification page is on
    screen, the cooldown is 60 and a resend during the next 60 seconds
    issues no provider call. *)
Definition cooldown_after_send : Prop :=
  ∀ (host : Host) (location : Location) (w : World) (e : string),
    e ≠ "" →
    (AuthContext.sendSignUpOTP host e w).1 = Normal tt →
    cooldown (page (mount location (AuthContext.sendSignUpOTP host e w).2)) = 60
    ∧ ∀ k : nat, (k < 60)%nat →
        requests_of
          (since (ticks host location k (mount location (AuthContext.sendSignUpOTP host e w).2))
             (dispatch host location ClickResend
                (ticks host location k (mount location (AuthContext.sendSignUpOTP host e w).2))))
        = [].

(** With no ['signupData'] stored, code submission fails with the
    missing-intent message and calls no provider, for every email and
    code. *)
Definition missing_intent_always : Prop :=
  ∀ (host : Host) (snap : PageState) (w : World),
    localStorage w !! "signupData" = None →
    error_msg (page (handleVerify host snap w).2) = missing_intent
    ∧ requests_of (since w (handleVerify host snap w).2) = [].

(** A positive cooldown blocks the resend and is left as it is; with a
    cooldown of 0 the resend calls [sendSignUpOTP] and, when that
    succeeds, sets the cooldown to 60; a positive cooldown loses one per
    second. *)
Definition resend_gate : Prop :=
  ∀ (host : Host) (location : Location) (snap : PageState) (w : World),
    (0 < cooldown snap → handleResendOtp host snap w = (Normal tt, w))
    ∧ (cooldown snap = 0 →
         ∃ resp, calls_of (since w (handleResendOtp host snap w).2)
                   = [(SignInWithOtp (email snap) false, resp)]
               ∧ (accepted resp = true →
                    cooldown (page (handleResendOtp host snap w).2) = 60))
    ∧ (ticking w = true → 0 < cooldown (page w) →
         cooldown (page (tick host location w)) = cooldown (page w) - 1).

End AsStated.

Module Scenario.
Import Samples OtpVerification.

(** The signup form has been submitted for [a@b.com]: the code was
    requested and the provider accepted the request. *)
Definition code_requested : World :=
  (AuthContext.sendSignUpOTP host_ok "a@b.com" empty_world).2.

(** The verification page then opens. *)
Definition page_shown : World := mount verify_location code_requested.

(** The user clicks "resend" at once. *)
Definition resent_at_once : World :=
  dispatch host_ok verify_location ClickResend page_shown.

(** What an impatient user does next. The timer of the cooldown has
    identifier 0: it is the first timer of this world. *)
Definition impatient : list Action :=
  [ChangeOtp "123456"; ClickResend; Fire 0; ClickResend; Submit; ClickResend].

(** The session store is constructed while the provider cannot be
    reached, and later torn down. *)
Definition store_built : World := AuthContext.mount host_no_network empty_world.
Definition store_torn_down : World := AuthContext.unmount store_built.

End Scenario.

Module MoreScenarios.
Import Samples Scenario OtpVerification.

(** The verification page reached by a bare link: no email in the
    location state. *)
Definition bare_location : Location := MkLocation "/verify" NoState.

(** The page is opened that way while the email and the intent of the
    signup are stored; the user asks for a new code and types it. *)
Definition reopened : World := mount bare_location (with_intent code_requested).

Definition code_typed : World :=
  dispatch host_ok bare_location (ChangeOtp "123456")
    (dispatch host_ok bare_location ClickResend reopened).

(** What is stored under ['signupData'] is not JSON. *)
Definition broken_intent : World :=
  with_localStorage (insert "signupData" "{oops") empty_world.

(** A provider whose session lookup resolves, with its [error] field
    set and no session. *)
Definition lookup_error : AuthError :=
  {| ae_message := "Session lookup failed"; ae_status := 500 |}.

Definition host_lookup_error : Host :=
  {| respond := λ _ req,
       match req with
       | GetSession =>
           Resolve {| data_session := None; data := VNull; error := Some lookup_error |}
       | _ => ok_response
       end;
     JSON_parse := parse; origin := "https://app.example" |}.

(** The store is constructed, the user signs in, signs out. *)
Definition ann : User := {| user_id := "u1"; user_email := "a@b.com" |}.
Definition ann_session : Session := {| access_token := "t0"; session_user := ann |}.

End MoreScenarios.

(** * Properties *)

Local Open Scope list_scope.
Local Open Scope Z_scope.

Ltac trace_list :=
  simpl; rewrite <- ?app_assoc; simpl; reflexivity.

Ltac model_unfold :=
  unfold try_finally, try_catch, call, throw, lift, console_log, console_error,
    navigate, perform, set_state, getItem, setItem, removeItem, setTimeout,
    clearTimeout, onAuthStateChange, unsubscribe, mbind, M_bind, mret, M_ret in *.

(** ** Traces and truthiness *)

Lemma since_app w w' l : trace w' = trace w ++ l → since w w' = l.
Proof. intros H. unfold since. rewrite H. apply drop_app_length. Qed.

Lemma calls_of_app l1 l2 : calls_of (l1 ++ l2) = calls_of l1 ++ calls_of l2.
Proof. unfold calls_of. apply omap_app. Qed.

Lemma truthy_true s : s ≠ "" → truthy s = true.
Proof. intros. unfold truthy. by rewrite bool_decide_eq_true_2. Qed.

(** ** The gateway ([AuthContext]) *)

Section Gateway.
Context (host : Host).

(** C1: [verifyOTPAndSignUp] issues the verification request first. When
    that request fails, the failure is what the caller receives and no
    account-creation request is issued; otherwise exactly one
    account-creation request follows, with the email, password and
    profile it was given. *)
Theorem verification_precedes_account_creation
    (email token : string) (password userData : value) (w : World) :
  ∃ resp rest,
    calls_of (since w (AuthContext.verifyOTPAndSignUp host email token password userData w).2)
    = (VerifyOtp email token "email", resp) :: rest
    ∧ match failure resp with
      | Some e =>
          (AuthContext.verifyOTPAndSignUp host email token password userData w).1 = Throw e
          ∧ rest = []
      | None =>
          ∃ resp', rest = [(SignUp email password userData (origin host +:+ "/login"), resp')]
      end.
Proof.
  unfold AuthContext.verifyOTPAndSignUp. model_unfold. simpl.
  destruct (respond host _ (VerifyOtp _ _ _)) as [v|e] eqn:Hv; simpl.
  - destruct (error v) as [ve|] eqn:Hve; simpl.
    + eexists _, _. split; [erewrite since_app by trace_list; reflexivity|].
      simpl. rewrite Hve. done.
    + destruct (respond host _ (SignUp _ _ _ _)) as [s|e] eqn:Hs; simpl;
        [destruct (error s) eqn:Hse; simpl|].
      all: eexists _, _; split; [erewrite since_app by trace_list; reflexivity|].
      all: simpl; rewrite Hve; simpl; eauto.
  - eexists _, _. split; [erewrite since_app by trace_list; reflexivity|]. done.
Qed.

(** [verifyOTPAndSignUp] completes normally exactly when both of its
    requests were issued and answered without failure. *)
Lemma verifyOTPAndSignUp_succeeds_iff
    (email token : string) (password userData : value) (w : World) :
  (∃ d, (AuthContext.verifyOTPAndSignUp host email token password userData w).1 = Normal d)
  ↔ signed_up (since w (AuthContext.verifyOTPAndSignUp host email token password userData w).2)
    = true.
Proof.
  unfold AuthContext.verifyOTPAndSignUp. model_unfold. simpl.
  destruct (respond host _ (VerifyOtp _ _ _)) as [v|e] eqn:Hv; simpl.
  - destruct (error v) as [ve|] eqn:Hve; simpl.
    + erewrite since_app by trace_list. unfold signed_up. simpl.
      split; [intros [? ?]; done|done].
    + destruct (respond host _ (SignUp _ _ _ _)) as [s|e] eqn:Hs; simpl;
        [destruct (error s) eqn:Hse; simpl|].
      all: erewrite since_app by trace_list; unfold signed_up, accepted; simpl.
      all: rewrite Hve; simpl; rewrite ?Hse; simpl.
      all: split; [intros [? ?]; done|try done].
      intros _. eauto.
  - erewrite since_app by trace_list. unfold signed_up. simpl.
    split; [intros [? ?]; done|done].
Qed.

(** C10: [sendSignUpOTP] stores the email under ['signupEmail'] before it
    issues the provider request and touches the storage no more: the key
    holds the email when the function ends, also when the request failed
    and its failure was passed on to the caller. *)
Theorem email_stored_before_request (e : string) (w : World) :
  ∃ resp rest,
    since w (AuthContext.sendSignUpOTP host e w).2
    = Console LLog "Sending signup OTP to:" (ArgStr e)
        :: StorageSet "signupEmail" e
        :: Call (SignInWithOtp e false) resp
        :: rest
    ∧ storage_writes rest = []
    ∧ localStorage (AuthContext.sendSignUpOTP host e w).2 !! "signupEmail" = Some e
    ∧ ∀ err, failure resp = Some err →
        (AuthContext.sendSignUpOTP host e w).1 = Throw err
        ∧ localStorage (AuthContext.sendSignUpOTP host e w).2 !! "signupEmail" = Some e.
Proof.
  unfold AuthContext.sendSignUpOTP. model_unfold. simpl.
  destruct (respond host _ _) as [r|x] eqn:Hr; simpl;
    [destruct (error r) as [a|] eqn:Ha; simpl|].
  all: eexists _, _; split; [erewrite since_app by trace_list; reflexivity|].
  all: split; [reflexivity|]; rewrite lookup_insert_eq; split; [reflexivity|].
  all: simpl; rewrite ?Ha; simpl; intros err Herr; by simplify_eq.
Qed.

(** The frame of [sendSignUpOTP]: every key but ['signupEmail'] keeps its
    value. *)
Lemma sendSignUpOTP_storage (e : string) (w : World) :
  localStorage (AuthContext.sendSignUpOTP host e w).2 = <["signupEmail" := e]> (localStorage w).
Proof.
  unfold AuthContext.sendSignUpOTP. model_unfold. simpl.
  destruct (respond host _ _) as [r|x]; simpl; [destruct (error r); simpl|]; reflexivity.
Qed.

(** The part of the handling of a failed lookup that the code has: when
    the session lookup made at construction is rejected, the
    store logs the failure, asks the provider nothing more, shows
    nothing besides, leaves [user] and [session] at [null] and turns
    [loading], [true] from construction, to [false]: the state is the
    one a lookup that found no session leaves. *)
Theorem failed_lookup_is_anonymous (w : World) (e : Exn) :
  respond host (trace w) GetSession = Reject e →
  auth_loading AuthContext.initial_state = true
  ∧ since w (AuthContext.mount host w)
    = [ Call GetSession (Reject e);
        Console LError "Error checking session:" (ArgExn e);
        State (SetAuthLoading false);
        Subscribed (next_id w) ]
  ∧ requests_of (since w (AuthContext.mount host w)) = [GetSession]
  ∧ auth (AuthContext.mount host w)
    = {| user := None; session := None; auth_loading := false |}
  ∧ ∀ (host' : Host) (r : Resolved),
      respond host' (trace w) GetSession = Resolve r →
      data_session r = None →
      auth (AuthContext.mount host' w) = auth (AuthContext.mount host w).
Proof.
  intros Hrej. split; [reflexivity|].
  assert (Hs : since w (AuthContext.mount host w)
               = [ Call GetSession (Reject e);
                   Console LError "Error checking session:" (ArgExn e);
                   State (SetAuthLoading false);
                   Subscribed (next_id w) ]).
  { unfold AuthContext.mount, AuthContext.effect, AuthContext.unawaited, AuthContext.checkUser.
    model_unfold. simpl. rewrite Hrej. simpl. apply since_app. trace_list. }
  split; [exact Hs|]. split; [by rewrite Hs|].
  assert (Ha : auth (AuthContext.mount host w)
               = {| user := None; session := None; auth_loading := false |}).
  { unfold AuthContext.mount, AuthContext.effect, AuthContext.unawaited, AuthContext.checkUser.
    model_unfold. simpl. rewrite Hrej. reflexivity. }
  split; [exact Ha|]. intros host' r Hres Hnone. rewrite Ha.
  unfold AuthContext.mount, AuthContext.effect, AuthContext.unawaited, AuthContext.checkUser.
  model_unfold. simpl. rewrite Hres. simpl. rewrite Hnone. reflexivity.
Qed.

(** A lookup that resolves with its [error] field set is not inspected
    by [checkUser], which reads [data] only: the store takes the session
    of the response and logs nothing. *)
Lemma resolved_lookup_is_not_inspected (w : World) (r : Resolved) :
  respond host (trace w) GetSession = Resolve r →
  since w (AuthContext.mount host w)
  = [ Call GetSession (Resolve r);
      State (SetSession (data_session r));
      State (SetUser (session_user <$> data_session r));
      State (SetAuthLoading false);
      Subscribed (next_id w) ]
  ∧ auth (AuthContext.mount host w)
    = {| user := session_user <$> data_session r; session := data_session r;
         auth_loading := false |}.
Proof.
  intros Hres.
  unfold AuthContext.mount, AuthContext.effect, AuthContext.unawaited, AuthContext.checkUser.
  model_unfold. simpl. rewrite Hres. simpl. split; [|reflexivity].
  apply since_app. trace_list.
Qed.

(** C5, as the code behaves: the closure that unsubscribes is the result
    of [checkUser], whose promise the effect drops, so the effect hands
    React no cleanup. Tearing the store down runs nothing, and the
    subscription registered at construction is still registered
    afterwards, although running the closure would have removed it. *)
Theorem subscription_survives_teardown (w : World) :
  (∃ w', AuthContext.checkUser host (with_auth (λ _, AuthContext.initial_state) w)
         = (Normal (Unsubscribe (next_id w)), w'))
  ∧ auth_cleanup (AuthContext.mount host w) = None
  ∧ next_id w ∈ listeners (AuthContext.mount host w)
  ∧ AuthContext.unmount (AuthContext.mount host w) = AuthContext.mount host w
  ∧ next_id w ∈ listeners (AuthContext.unmount (AuthContext.mount host w))
  ∧ next_id w ∉ listeners (run_cleanup (Unsubscribe (next_id w)) (AuthContext.mount host w)).2.
Proof.
  assert (Hc : ∃ w', AuthContext.checkUser host (with_auth (λ _, AuthContext.initial_state) w)
                     = (Normal (Unsubscribe (next_id w)), w')
                   ∧ listeners w' = {[next_id w]} ∪ listeners w).
  { unfold AuthContext.checkUser. model_unfold. simpl.
    destruct (respond host _ _) as [r|x]; simpl; eexists; split; reflexivity. }
  destruct Hc as (w' & Hc & Hl).
  assert (Hm : AuthContext.mount host w = with_auth_cleanup None w').
  { unfold AuthContext.mount, AuthContext.effect, AuthContext.unawaited.
    model_unfold. rewrite Hc. reflexivity. }
  split; [eauto|]. rewrite Hm. simpl.
  split; [reflexivity|]. rewrite Hl.
  assert (Hin : next_id w ∈ ({[next_id w]} ∪ listeners w : gset nat)).
  { apply elem_of_union_l, elem_of_singleton. reflexivity. }
  split; [exact Hin|]. split; [reflexivity|]. split; [exact Hin|].
  intros [_ Hout]%elem_of_difference. apply Hout, elem_of_singleton. reflexivity.
Qed.

End Gateway.

(** ** The effect of the verification page and its timer *)

Section PageEffect.
Import OtpVerification.

Lemma forallb_map_to_list (f : nat * Timer → bool) (m : gmap nat Timer) :
  forallb f (map_to_list m) = true ↔ ∀ id t, m !! id = Some t → f (id, t) = true.
Proof.
  rewrite forallb_forall. split.
  - intros H id t Hl. apply H, list_elem_of_In, elem_of_map_to_list, Hl.
  - intros H [id t] Hin. apply H, elem_of_map_to_list, list_elem_of_In, Hin.
Qed.

(** What [ticking] says. *)
Lemma ticking_inv (w : World) :
  ticking w = true →
  ∃ c, page_effect w = Some (cooldown (page w), c)
     ∧ (0 < cooldown (page w) →
          ∃ id, c = Some (ClearTimeout id)
              ∧ timers w !! id
                = Some {| delay := 1000; action := TSetCooldown (cooldown (page w) - 1) |}
              ∧ (id < next_id w)%nat)
     ∧ (¬ 0 < cooldown (page w) → c = None)
     ∧ tidy w.
Proof.
  unfold ticking. destruct (page_effect w) as [[d c]|] eqn:Heff; [|done].
  intros H. apply andb_true_iff in H as [H Htidy]. apply andb_true_iff in H as [Hd H].
  apply bool_decide_eq_true in Hd. subst d.
  exists c. split; [done|].
  assert (Ht : tidy w).
  { intros id t Hl Hcd. rewrite forallb_map_to_list in Htidy.
    specialize (Htidy id t Hl). unfold tidy_at in Htidy. simpl in Htidy.
    rewrite Hcd in Htidy. simpl in Htidy. rewrite Heff.
    destruct c as [[|id']|]; try done. apply bool_decide_eq_true in Htidy. subst. eauto. }
  case_bool_decide as Hpos.
  - split; [|done]. intros _. destruct c as [[|id]|]; try done.
    destruct (timers w !! id) as [[d [n|]]|] eqn:Hl; try done.
    apply andb_true_iff in H as [H H3]. apply andb_true_iff in H as [H1 H2].
    apply bool_decide_eq_true in H1, H2, H3. subst. eauto.
  - split; [done|]. split; [|done]. intros _. by destruct c.
Qed.

Lemma ticking_intro (w : World) (c : option Cleanup) :
  page_effect w = Some (cooldown (page w), c) →
  (0 < cooldown (page w) →
     ∃ id, c = Some (ClearTimeout id)
         ∧ timers w !! id
           = Some {| delay := 1000; action := TSetCooldown (cooldown (page w) - 1) |}
         ∧ (id < next_id w)%nat) →
  (¬ 0 < cooldown (page w) → c = None) →
  tidy w →
  ticking w = true.
Proof.
  intros Heff Hpos Hzero Htidy. unfold ticking. rewrite Heff.
  rewrite bool_decide_eq_true_2 by done. simpl.
  apply andb_true_iff. split.
  - case_bool_decide as Hc.
    + destruct (Hpos Hc) as (id & -> & -> & Hid).
      rewrite !bool_decide_eq_true_2 by done. done.
    + by rewrite (Hzero Hc).
  - apply forallb_map_to_list. intros id t Hl. unfold tidy_at. simpl.
    destruct (is_cooldown_timer t) eqn:Hcd; [|done]. simpl.
    destruct (Htidy id t Hl Hcd) as (deps & Hd). rewrite Heff in Hd.
    injection Hd as _ ->. by rewrite bool_decide_eq_true_2.
Qed.

(** The effect reads the storage, sets the email and the message or
    navigates away, and starts the timer: it calls no provider, writes
    no storage and leaves the cooldown alone. *)
Lemma run_effect_frame (location : Location) (w : World) :
  ∃ l, trace (run_effect location w) = trace w ++ l
     ∧ calls_of l = []
     ∧ localStorage (run_effect location w) = localStorage w
     ∧ cooldown (page (run_effect location w)) = cooldown (page w).
Proof.
  unfold run_effect, effect. model_unfold. simpl.
  destruct (state_email location) as [e|];
    [|destruct (localStorage w !! "signupEmail") as [s|]; [destruct (truthy s)|]];
    simpl; case_bool_decide as Hc; simpl.
  all: eexists; split; [trace_list|]; done.
Qed.

(** Run where no cooldown timer is pending, the effect leaves the page
    [ticking]. *)
Lemma run_effect_ticking (location : Location) (w : World) :
  (∀ id t, timers w !! id = Some t → is_cooldown_timer t = false) →
  ticking (run_effect location w) = true.
Proof.
  intros Hnone. unfold run_effect, effect. model_unfold. simpl.
  destruct (state_email location) as [e|];
    [|destruct (localStorage w !! "signupEmail") as [s|]; [destruct (truthy s)|]];
    simpl; case_bool_decide as Hc; simpl.
  all: eapply ticking_intro; [reflexivity|simpl..].
  all: try (intros _; eexists; split; [reflexivity|]; rewrite lookup_insert_eq; split; [done|lia]).
  all: try (intros; done).
  all: intros id t Hl Hcd; simpl in Hl |- *.
  all: try (apply lookup_insert_Some in Hl as [[<- _]|[_ Hl]]; [by eauto|]).
  all: by rewrite (Hnone id t Hl) in Hcd.
Qed.

Lemma run_cleanup_props (c : Cleanup) (w : World) :
  ∃ e, trace (run_cleanup c w).2 = trace w ++ [e]
     ∧ calls_of [e] = []
     ∧ localStorage (run_cleanup c w).2 = localStorage w
     ∧ page (run_cleanup c w).2 = page w.
Proof. destruct c; simpl; eexists; done. Qed.

Lemma rerender_frame (location : Location) (w : World) :
  ∃ l, trace (rerender location w) = trace w ++ l
     ∧ calls_of l = []
     ∧ localStorage (rerender location w) = localStorage w
     ∧ cooldown (page (rerender location w)) = cooldown (page w).
Proof.
  unfold rerender. destruct (page_effect w) as [[d c]|].
  - case_bool_decide.
    + exists []. rewrite app_nil_r. done.
    + destruct c as [c|].
      * destruct (run_cleanup_props c w) as (e & Ht & Hcalls & Hs & Hp).
        destruct (run_effect_frame location (run_cleanup c w).2) as (l & Ht' & Hc' & Hs' & Hp').
        exists (e :: l). rewrite Ht', Ht, <- app_assoc. split; [done|].
        split. { change (e :: l) with ([e] ++ l). rewrite calls_of_app, Hcalls, Hc'. done. }
        rewrite Hs', Hs, Hp', Hp. done.
      * destruct (run_effect_frame location w) as (l & Ht' & Hc' & Hs' & Hp').
        exists l. done.
  - exists []. rewrite app_nil_r. done.
Qed.

Lemma rerender_settled (location : Location) (w : World) d c :
  page_effect w = Some (d, c) → d = cooldown (page w) → rerender location w = w.
Proof. intros H ->. unfold rerender. rewrite H. by rewrite bool_decide_eq_true_2. Qed.

(** A render that changed the cooldown re-runs the effect, its previous
    cleanup first, and leaves the page [ticking]. *)
Lemma rerender_changed (location : Location) (w : World) d c :
  page_effect w = Some (d, c) → d ≠ cooldown (page w) → tidy w →
  ticking (rerender location w) = true.
Proof.
  intros H Hd Htidy. unfold rerender. rewrite H. rewrite bool_decide_eq_false_2 by done.
  apply run_effect_ticking. intros id t Hl.
  destruct (is_cooldown_timer t) eqn:Hcd; [exfalso|done].
  destruct c as [[sub|id']|]; simpl in Hl.
  - destruct (Htidy id t Hl Hcd) as (deps & Heff). rewrite H in Heff. done.
  - apply lookup_delete_Some in Hl as [Hne Hl].
    destruct (Htidy id t Hl Hcd) as (deps & Heff). rewrite H in Heff. by simplify_eq.
  - destruct (Htidy id t Hl Hcd) as (deps & Heff). rewrite H in Heff. done.
Qed.

Lemma mount_cooldown (location : Location) (w : World) :
  cooldown (page (mount location w)) = 0.
Proof.
  unfold mount.
  destruct (run_effect_frame location (with_page (λ _, initial_state) w)) as (l & _ & _ & _ & Hc).
  rewrite Hc. reflexivity.
Qed.

(** A page that opens while no cooldown timer is pending is [ticking]. *)
Lemma mount_ticking (location : Location) (w : World) :
  (∀ id t, timers w !! id = Some t → is_cooldown_timer t = false) →
  ticking (mount location w) = true.
Proof. intros H. unfold mount. by apply run_effect_ticking. Qed.

End PageEffect.

Section Page.
Context (host : Host).
Import OtpVerification.

Lemma resend_requests_app l1 l2 :
  resend_requests (l1 ++ l2) = resend_requests l1 ++ resend_requests l2.
Proof.
  unfold resend_requests, requests_of. by rewrite calls_of_app, fmap_app, filter_app.
Qed.

Lemma resend_requests_no_calls l : calls_of l = [] → resend_requests l = [].
Proof. intros H. unfold resend_requests, requests_of. by rewrite H. Qed.

(** A handler that leaves the cooldown, the record of the effect and the
    cooldown timers alone leaves a [ticking] page [ticking], and React
    has no effect to re-run after it. *)
Lemma settle_quiet (location : Location) (w w1 : World) :
  ticking w = true →
  page_effect w1 = page_effect w →
  cooldown (page w1) = cooldown (page w) →
  (∀ id t, timers w !! id = Some t → is_cooldown_timer t = true → timers w1 !! id = Some t) →
  (∀ id t, timers w1 !! id = Some t → is_cooldown_timer t = true → timers w !! id = Some t) →
  (next_id w ≤ next_id w1)%nat →
  rerender location w1 = w1 ∧ ticking w1 = true.
Proof.
  intros Ht Heff Hcd Hkeep Hnew Hid.
  destruct (ticking_inv w Ht) as (c & He & Hpos & Hzero & Htidy).
  split.
  - eapply rerender_settled; [by rewrite Heff|]. by rewrite Hcd.
  - eapply (ticking_intro w1 c).
    + by rewrite Heff, Hcd.
    + rewrite Hcd. intros Hp. destruct (Hpos Hp) as (id & -> & Hl & Hlt).
      exists id. split; [done|]. split; [by apply Hkeep|lia].
    + by rewrite Hcd.
    + intros id t Hl Hc. rewrite Heff. eapply Htidy; [by apply Hnew|done].
Qed.

Lemma fire_cooldown_timer (location : Location) (w : World) (id : nat) (t : Timer) :
  ticking w = true → timers w !! id = Some t → is_cooldown_timer t = true →
  0 < cooldown (page w) →
  ∃ l, trace (dispatch host location (Fire id) w) = trace w ++ l
     ∧ calls_of l = []
     ∧ cooldown (page (dispatch host location (Fire id) w)) = cooldown (page w) - 1
     ∧ ticking (dispatch host location (Fire id) w) = true
     ∧ localStorage (dispatch host location (Fire id) w) = localStorage w.
Proof.
  intros Ht Hl Hc Hpos. destruct (ticking_inv w Ht) as (c & He & Hp & _ & Htidy).
  destruct (Hp Hpos) as (id' & -> & Htimer & _).
  destruct (Htidy id t Hl Hc) as (deps & He'). rewrite He in He'.
  injection He' as _ <-. rewrite Htimer in Hl. injection Hl as <-.
  unfold dispatch, handle, fire. rewrite Htimer.
  cbn [action run_timer]. unfold set_state. cbn [snd].
  set (w1 := emit _ _).
  assert (Hpe : page_effect w1 = Some (cooldown (page w), Some (ClearTimeout id'))) by done.
  assert (Htidy1 : tidy w1).
  { intros i t Hi Hct. subst w1. simpl in Hi. apply lookup_delete_Some in Hi as [_ Hi].
    exact (Htidy i t Hi Hct). }
  destruct (rerender_frame location w1) as (l & Htr & Hcalls & Hs & Hcd).
  exists (State (SetCooldown (cooldown (page w) - 1)) :: l).
  split; [rewrite Htr; simpl; by rewrite <- app_assoc|].
  split. { change (?e :: l) with ([e] ++ l). by rewrite calls_of_app, Hcalls. }
  split; [by rewrite Hcd|]. split; [|by rewrite Hs].
  eapply rerender_changed; [exact Hpe| |exact Htidy1]. simpl. lia.
Qed.

Lemma tick_props (location : Location) (w : World) :
  ticking w = true → 0 < cooldown (page w) →
  cooldown (page (tick host location w)) = cooldown (page w) - 1
  ∧ ticking (tick host location w) = true
  ∧ calls_of (since w (tick host location w)) = []
  ∧ localStorage (tick host location w) = localStorage w.
Proof.
  intros Ht Hpos. destruct (ticking_inv w Ht) as (c & He & Hc & _).
  destruct (Hc Hpos) as (id & -> & Htimer & _).
  unfold tick. rewrite He.
  destruct (fire_cooldown_timer location w id _ Ht Htimer eq_refl Hpos)
    as (l & Htr & Hcalls & Hcd & Ht' & Hs).
  split; [exact Hcd|]. split; [exact Ht'|]. split; [|exact Hs].
  by erewrite since_app.
Qed.

Lemma tick_idle (location : Location) (w : World) :
  ticking w = true → ¬ 0 < cooldown (page w) → tick host location w = w.
Proof.
  intros Ht Hpos. destruct (ticking_inv w Ht) as (c & He & _ & Hc & _).
  unfold tick. rewrite He, (Hc Hpos). done.
Qed.

Lemma ticks_props (location : Location) (k : nat) : ∀ w,
  ticking w = true → Z.of_nat k ≤ cooldown (page w) →
  cooldown (page (ticks host location k w)) = cooldown (page w) - Z.of_nat k
  ∧ ticking (ticks host location k w) = true
  ∧ localStorage (ticks host location k w) = localStorage w.
Proof.
  induction k as [|k IH]; intros w Ht Hk.
  - simpl. split; [lia|done].
  - simpl. destruct (tick_props location w Ht) as (Hc & Ht' & _ & Hs); [lia|].
    destruct (IH (tick host location w) Ht') as (Hc' & Ht'' & Hs'); [lia|].
    rewrite Hc', Hc, Hs', Hs. split; [lia|done].
Qed.

(** *** The resend handler, case by case *)

Lemma resend_blocked (snap : PageState) (w : World) :
  0 < cooldown snap → handleResendOtp host snap w = (Normal tt, w).
Proof.
  intros H. unfold handleResendOtp. rewrite bool_decide_eq_true_2 by done. reflexivity.
Qed.

Lemma resend_no_email (snap : PageState) (w : World) :
  ¬ 0 < cooldown snap → email snap = "" →
  handleResendOtp host snap w
  = (Normal tt, emit (State (SetError email_required)) (apply_update (SetError email_required) w)).
Proof.
  intros Hc He. unfold handleResendOtp. rewrite bool_decide_eq_false_2 by done.
  rewrite He. reflexivity.
Qed.

Lemma resend_runs (snap : PageState) (w : World) :
  ¬ 0 < cooldown snap → email snap ≠ "" →
  ∃ resp l,
    trace (handleResendOtp host snap w).2 = trace w ++ l
    ∧ calls_of l = [(SignInWithOtp (email snap) false, resp)]
    ∧ cooldown (page (handleResendOtp host snap w).2)
      = (if accepted resp then 60 else cooldown (page w))
    ∧ page_effect (handleResendOtp host snap w).2 = page_effect w
    ∧ timers (handleResendOtp host snap w).2 = timers w
    ∧ next_id (handleResendOtp host snap w).2 = next_id w
    ∧ localStorage (handleResendOtp host snap w).2
      = <["signupEmail" := email snap]> (localStorage w).
Proof.
  intros Hc He. unfold handleResendOtp, AuthContext.sendSignUpOTP.
  rewrite bool_decide_eq_false_2 by done. rewrite truthy_true by done. simpl.
  model_unfold. simpl.
  destruct (respond host _ _) as [r|e] eqn:Hr; simpl;
    [destruct (error r) as [a|] eqn:Ha; simpl|].
  all: eexists _, _; split; [trace_list|]; split; [reflexivity|].
  all: unfold accepted; simpl; rewrite ?Ha; simpl; done.
Qed.

(** A blocked resend changes nothing, also once React has re-rendered. *)
Lemma dispatch_resend_blocked (location : Location) (w : World) :
  ticking w = true → 0 < cooldown (page w) →
  dispatch host location ClickResend w = w.
Proof.
  intros Ht Hpos. unfold dispatch, handle. rewrite resend_blocked by done. simpl.
  destruct (ticking_inv w Ht) as (c & He & _). by eapply rerender_settled.
Qed.

Lemma dispatch_resend_runs (location : Location) (w : World) :
  ticking w = true → cooldown (page w) = 0 → email (page w) ≠ "" →
  ∃ resp,
    calls_of (since w (dispatch host location ClickResend w))
    = [(SignInWithOtp (email (page w)) false, resp)]
    ∧ (accepted resp = true →
         cooldown (page (dispatch host location ClickResend w)) = 60
         ∧ ticking (dispatch host location ClickResend w) = true).
Proof.
  intros Ht H0 He.
  destruct (resend_runs (page w) w) as (resp & l & Htr & Hcalls & Hcd & Hpe & Htm & _);
    [lia|done|].
  destruct (ticking_inv w Ht) as (c & Heff & _ & _ & Htidy).
  unfold dispatch, handle.
  destruct (rerender_frame location (handleResendOtp host (page w) w).2)
    as (l' & Htr' & Hcalls' & _ & Hcd').
  exists resp. split.
  { erewrite since_app; [|rewrite Htr', Htr, <- app_assoc; reflexivity].
    rewrite calls_of_app, Hcalls, Hcalls'. reflexivity. }
  intros Hacc. rewrite Hacc in Hcd. split; [by rewrite Hcd', Hcd|].
  eapply rerender_changed; [by rewrite Hpe|rewrite Hcd; lia|].
  intros id t Hl Hct. rewrite Htm in Hl. rewrite Hpe. by eapply Htidy.
Qed.

(** *** Code submission, case by case *)

Lemma verify_guard (snap : PageState) (w : World) :
  email snap = "" ∨ otp snap = "" →
  handleVerify host snap w
  = (Normal tt, emit (State (SetError fields_required)) (apply_update (SetError fields_required) w)).
Proof.
  intros H. unfold handleVerify.
  assert (negb (truthy (email snap)) || negb (truthy (otp snap)) = true) as ->; [|done].
  destruct H as [-> | ->]; simpl; [done|]. apply orb_true_r.
Qed.

Lemma verify_no_intent (snap : PageState) (w : World) :
  email snap ≠ "" → otp snap ≠ "" →
  localStorage w !! "signupData" = None →
  (handleVerify host snap w).1 = Normal tt
  ∧ since w (handleVerify host snap w).2
    = [ State (SetLoading true); State (SetError "");
        Console LLog ("Verifying OTP for email: " +:+ email snap) ArgNone;
        StorageGet "signupData";
        Console LError "Verification error:" (ArgExn (Error missing_intent));
        State (SetError missing_intent);
        State (SetLoading false) ]
  ∧ error_msg (page (handleVerify host snap w).2) = missing_intent
  ∧ loading (page (handleVerify host snap w).2) = false.
Proof.
  intros He Ho Hs. unfold handleVerify.
  rewrite !truthy_true by done. simpl. model_unfold. simpl. rewrite Hs. simpl.
  split; [done|]. split; [|done]. apply since_app. trace_list.
Qed.

(** Code submission never asks for a new code, leaves the cooldown and
    the record of the effect alone, and starts at most the timer of the
    redirection, under a fresh identifier. *)
Lemma handleVerify_frame (snap : PageState) (w : World) :
  ∃ l, trace (handleVerify host snap w).2 = trace w ++ l
     ∧ resend_requests l = []
     ∧ page_effect (handleVerify host snap w).2 = page_effect w
     ∧ cooldown (page (handleVerify host snap w).2) = cooldown (page w)
     ∧ (timers (handleVerify host snap w).2 = timers w
        ∨ timers (handleVerify host snap w).2
          = <[next_id w := {| delay := 2000;
                              action := TNavigate "/login" (StAccountCreated true) |}]>
              (timers w))
     ∧ (next_id w ≤ next_id (handleVerify host snap w).2)%nat.
Proof.
  unfold handleVerify, AuthContext.verifyOTPAndSignUp.
  destruct (negb (truthy (email snap)) || negb (truthy (otp snap))) eqn:Hg.
  { simpl. eexists. split; [trace_list|]. split; [done|]. eauto. }
  model_unfold. simpl.
  destruct (localStorage w !! "signupData") as [s|] eqn:Hs; simpl;
    [destruct (truthy s) eqn:Hts; simpl|].
  2,3: eexists; split; [trace_list|]; split; [done|]; eauto.
  destruct (JSON_parse host s) as [d|e] eqn:Hp; simpl.
  2: eexists; split; [trace_list|]; split; [done|]; eauto.
  destruct (get_prop d "password") as [pw|e] eqn:Hpw; simpl.
  2: eexists; split; [trace_list|]; split; [done|]; eauto.
  destruct (get_prop d "name") as [nm|e] eqn:Hnm; simpl.
  2: eexists; split; [trace_list|]; split; [done|]; eauto.
  destruct (respond host _ (VerifyOtp _ _ _)) as [v|e] eqn:Hv; simpl.
  2: eexists; split; [trace_list|]; split; [done|]; eauto.
  destruct (error v) as [ve|] eqn:Hve; simpl.
  { eexists; split; [trace_list|]; split; [done|]; eauto. }
  destruct (respond host _ (SignUp _ _ _ _)) as [r|e] eqn:Hr; simpl.
  2: { eexists; split; [trace_list|]; split; [done|]; eauto. }
  destruct (error r) as [re|] eqn:Hre; simpl.
  { eexists; split; [trace_list|]; split; [done|]; eauto. }
  eexists; split; [trace_list|]; split; [done|].
  split; [done|]. split; [done|]. split; [by right|lia].
Qed.

(** *** Any action on the page *)

(** A pending cooldown timer is the current one: the cooldown is
    positive and the identifier of the timer has been handed out. *)
Lemma cooldown_timer_current (w : World) (id : nat) (t : Timer) :
  ticking w = true → timers w !! id = Some t → is_cooldown_timer t = true →
  0 < cooldown (page w) ∧ (id < next_id w)%nat.
Proof.
  intros Ht Hl Hc. destruct (ticking_inv w Ht) as (c & He & Hp & Hz & Htidy).
  destruct (Htidy id t Hl Hc) as (deps & Hd). rewrite He in Hd. injection Hd as _ ->.
  destruct (decide (0 < cooldown (page w))) as [Hpos|Hpos].
  - destruct (Hp Hpos) as (id' & Hid & _ & Hlt). by simplify_eq.
  - by specialize (Hz Hpos).
Qed.

(** Every action but a resend and the firing of the cooldown timer
    leaves the cooldown as it is, requests no code and keeps the page
    [ticking]. *)
Lemma quiet_actions (location : Location) (a : Action) (w : World) :
  ticking w = true → is_cooldown_fire a w = false → a ≠ ClickResend →
  ∃ l, trace (dispatch host location a w) = trace w ++ l
     ∧ resend_requests l = []
     ∧ ticking (dispatch host location a w) = true
     ∧ cooldown (page (dispatch host location a w)) = cooldown (page w).
Proof.
  intros Ht Hnf Hnr. destruct (ticking_inv w Ht) as (c & He & _).
  assert (Hquiet : ∀ w1 l,
    trace w1 = trace w ++ l → resend_requests l = [] →
    page_effect w1 = page_effect w → cooldown (page w1) = cooldown (page w) →
    (∀ id t, timers w !! id = Some t → is_cooldown_timer t = true → timers w1 !! id = Some t) →
    (∀ id t, timers w1 !! id = Some t → is_cooldown_timer t = true → timers w !! id = Some t) →
    (next_id w ≤ next_id w1)%nat →
    ∃ l, trace (rerender location w1) = trace w ++ l
       ∧ resend_requests l = []
       ∧ ticking (rerender location w1) = true
       ∧ cooldown (page (rerender location w1)) = cooldown (page w)).
  { intros w1 l Htr Hreq Heff Hcd Hkeep Hnew Hid.
    destruct (settle_quiet location w w1 Ht Heff Hcd Hkeep Hnew Hid) as [-> Ht1].
    exists l. done. }
  destruct a as [| |s|s| |id]; unfold dispatch, handle; [|done|..].
  - (* Submit *)
    destruct (handleVerify_frame (page w) w) as (l & Htr & Hreq & Heff & Hcd & Htm & Hid).
    simpl. eapply Hquiet; try done.
    + intros id t Hl Hc. destruct Htm as [-> | ->]; [done|].
      rewrite lookup_insert_ne; [done|]. intros <-.
      destruct (cooldown_timer_current w _ t Ht Hl Hc) as [_ Hlt]. lia.
    + intros id t Hl Hc. destruct Htm as [Htm | Htm]; rewrite Htm in Hl; [done|].
      apply lookup_insert_Some in Hl as [[_ <-]|[_ Hl]]; done.
  - (* ChangeOtp *)
    simpl. eapply (Hquiet _ [_]); done.
  - (* ChangeEmail *)
    simpl. eapply (Hquiet _ [_]); done.
  - (* StartOver *)
    simpl. eapply (Hquiet _ [_]); done.
  - (* Fire *)
    simpl in Hnf |- *. unfold fire. destruct (timers w !! id) as [t|] eqn:Hl.
    + destruct t as [d [n|to st]]; [done|]. simpl.
      eapply (Hquiet _ [_]); try done.
      * simpl. intros i t Hi Hct. rewrite lookup_delete_ne; [done|].
        intros <-. rewrite Hl in Hi. by simplify_eq.
      * simpl. intros i t Hi Hct. by apply lookup_delete_Some in Hi as [_ Hi].
    + simpl. rewrite (rerender_settled location w _ _ He eq_refl).
      exists []. rewrite app_nil_r. done.
Qed.

(** An action taken while the cooldown is positive requests no code;
    it takes one off the cooldown when it is the firing of the cooldown
    timer and leaves the cooldown as it is otherwise. *)
Lemma dispatch_step (location : Location) (a : Action) (w : World) :
  ticking w = true → 0 < cooldown (page w) →
  ∃ l, trace (dispatch host location a w) = trace w ++ l
     ∧ resend_requests l = []
     ∧ ticking (dispatch host location a w) = true
     ∧ cooldown (page (dispatch host location a w))
       = cooldown (page w) - (if is_cooldown_fire a w then 1 else 0).
Proof.
  intros Ht Hpos.
  assert (a = ClickResend ∨ a ≠ ClickResend) as [->|Hnr]
    by (destruct a; (by left) || (by right)).
  { rewrite dispatch_resend_blocked by done.
    exists []. rewrite app_nil_r. simpl. split; [done|]. split; [done|]. split; [done|lia]. }
  destruct (is_cooldown_fire a w) eqn:Hf.
  - destruct a as [| | | | |id]; try done. simpl in Hf.
    destruct (timers w !! id) as [t|] eqn:Hl; [|done].
    destruct (fire_cooldown_timer location w id t Ht Hl Hf Hpos)
      as (l & Htr & Hcalls & Hcd & Ht' & _).
    exists l. split; [done|]. split; [by apply resend_requests_no_calls|]. done.
  - destruct (quiet_actions location a w Ht Hf Hnr) as (l & Htr & Hreq & Ht' & Hcd).
    exists l. split; [done|]. split; [done|]. split; [done|lia].
Qed.

(** [ticking] is an invariant of the page: every action keeps it. *)
Lemma dispatch_ticking (location : Location) (a : Action) (w : World) :
  ticking w = true → ticking (dispatch host location a w) = true.
Proof.
  intros Ht. destruct (decide (0 < cooldown (page w))) as [Hpos|Hpos].
  { by destruct (dispatch_step location a w Ht Hpos) as (_ & _ & _ & ? & _). }
  assert (a = ClickResend ∨ a ≠ ClickResend) as [->|Hnr]
    by (destruct a; (by left) || (by right)).
  - destruct (ticking_inv w Ht) as (c & He & _ & _ & Htidy).
    destruct (decide (email (page w) = "")) as [Hem|Hem].
    + unfold dispatch, handle. rewrite resend_no_email by done. simpl.
      by edestruct (settle_quiet location w) as [-> ?].
    + destruct (resend_runs (page w) w Hpos Hem)
        as (resp & l & _ & _ & Hcd & Hpe & Htm & Hid & _).
      unfold dispatch, handle. destruct (accepted resp).
      * eapply rerender_changed; [by rewrite Hpe|rewrite Hcd; lia|].
        intros id t Hl Hct. rewrite Htm in Hl. rewrite Hpe. by eapply Htidy.
      * destruct (settle_quiet location w (handleResendOtp host (page w) w).2 Ht Hpe Hcd)
          as [-> ?]; [by rewrite Htm|by rewrite Htm|lia|done].
  - destruct (is_cooldown_fire a w) eqn:Hf.
    + destruct a as [| | | | |id]; try done. simpl in Hf.
      destruct (timers w !! id) as [t|] eqn:Hl; [|done].
      by destruct (cooldown_timer_current w id t Ht Hl Hf).
    + by destruct (quiet_actions location a w Ht Hf Hnr) as (_ & _ & _ & ? & _).
Qed.

Lemma run_ticking (location : Location) (acts : list Action) : ∀ w,
  ticking w = true → ticking (run host location acts w) = true.
Proof.
  induction acts as [|a acts IH]; intros w Ht; [done|].
  simpl. apply IH. by apply dispatch_ticking.
Qed.

(** While fewer seconds have passed than the cooldown holds, whatever
    is done on the page, no code is requested and the cooldown is what
    it was less the seconds passed. *)
Lemma run_props (location : Location) (acts : list Action) : ∀ w,
  ticking w = true →
  Z.of_nat (elapsed host location acts w) < cooldown (page w) →
  ∃ l, trace (run host location acts w) = trace w ++ l
     ∧ resend_requests l = []
     ∧ ticking (run host location acts w) = true
     ∧ cooldown (page (run host location acts w))
       = cooldown (page w) - Z.of_nat (elapsed host location acts w).
Proof.
  induction acts as [|a acts IH]; intros w Ht Hlt.
  - exists []. rewrite app_nil_r. simpl. split; [done|]. split; [done|]. split; [done|lia].
  - simpl in Hlt |- *.
    destruct (dispatch_step location a w Ht) as (l1 & Htr1 & Hreq1 & Ht1 & Hcd1); [lia|].
    destruct (IH (dispatch host location a w) Ht1) as (l2 & Htr2 & Hreq2 & Ht2 & Hcd2).
    { rewrite Hcd1. destruct (is_cooldown_fire a w); lia. }
    exists (l1 ++ l2). rewrite Htr2, Htr1, <- app_assoc. split; [done|].
    split; [by rewrite resend_requests_app, Hreq1, Hreq2|]. split; [done|].
    rewrite Hcd2, Hcd1. destruct (is_cooldown_fire a w); lia.
Qed.

End Page.
(** ** The signup coordinator ([OtpVerification]) *)

Section Coordinator.
Context (host : Host).
Import OtpVerification.

Lemma since_refl (w : World) : since w w = [].
Proof. unfold since. apply drop_all. Qed.

(** C2 (amended): the page opens with a cooldown of 0, whatever
    [sendSignUpOTP] did before; it is a resend whose [sendSignUpOTP]
    succeeds that sets the cooldown to 60. From then on, as long as
    fewer than 60 seconds have passed, whatever is done on the page, no
    code is requested from the provider, the cooldown is 60 less the
    seconds passed, and a resend attempt is rejected locally: it issues
    no provider call and changes nothing. *)
Theorem cooldown_after_resend (location : Location) (w : World) :
  ticking w = true →
  cooldown (page w) = 0 →
  email (page w) ≠ "" →
  all_accepted (since w (dispatch host location ClickResend w)) = true →
  let resent := dispatch host location ClickResend w in
  cooldown (page resent) = 60
  ∧ (∀ acts : list Action,
       (elapsed host location acts resent < 60)%nat →
       let later := run host location acts resent in
       resend_requests (since resent later) = []
       ∧ cooldown (page later) = 60 - Z.of_nat (elapsed host location acts resent)
       ∧ requests_of (since later (dispatch host location ClickResend later)) = []
       ∧ dispatch host location ClickResend later = later)
  ∧ (∀ k : nat, (k < 60)%nat →
       cooldown (page (ticks host location k resent)) = 60 - Z.of_nat k)
  ∧ (∀ w0 : World, cooldown (page (mount location w0)) = 0).
Proof.
  intros Ht H0 He Hacc resent.
  destruct (dispatch_resend_runs host location w Ht H0 He) as (resp & Hcalls & Hok).
  unfold all_accepted in Hacc. rewrite Hcalls in Hacc. simpl in Hacc.
  rewrite andb_true_r in Hacc. destruct (Hok Hacc) as [H60 Ht'].
  fold resent in H60, Ht'.
  split; [exact H60|]. split; [|split; [|intros w0; apply mount_cooldown]].
  - intros acts Hlt later.
    destruct (run_props host location acts resent Ht') as (l & Htr & Hreq & Htl & Hcd); [lia|].
    fold later in Htr, Htl, Hcd.
    assert (Hpos : 0 < cooldown (page later)) by lia.
    split; [by erewrite since_app|]. split; [by rewrite Hcd, H60|].
    rewrite (dispatch_resend_blocked host location later Htl Hpos).
    rewrite since_refl. done.
  - intros k Hk.
    destruct (ticks_props host location k resent Ht') as (Hc & _); [lia|].
    by rewrite Hc, H60.
Qed.

(** C3 (amended): with no ['signupData'] stored, code submission calls
    no provider, for every email and code; when the email and the code
    are both non-empty it fails with the missing-intent error, an [Error]
    built by the page itself and not an error object of the provider,
    and shows its message. *)
Theorem missing_intent_stops_verification (snap : PageState) (w : World) :
  localStorage w !! "signupData" = None →
  requests_of (since w (handleVerify host snap w).2) = []
  ∧ (email snap ≠ "" → otp snap ≠ "" →
       (handleVerify host snap w).1 = Normal tt
       ∧ error_msg (page (handleVerify host snap w).2) = missing_intent
       ∧ loading (page (handleVerify host snap w).2) = false
       ∧ Console LError "Verification error:" (ArgExn (Error missing_intent))
           ∈ since w (handleVerify host snap w).2
       ∧ ∀ a : AuthError, Error missing_intent ≠ ProviderError a).
Proof.
  intros Hs. split.
  - destruct (decide (email snap = "")) as [He|He];
      [|destruct (decide (otp snap = "")) as [Ho|Ho]].
    + rewrite verify_guard by eauto. simpl. erewrite since_app by trace_list. done.
    + rewrite verify_guard by eauto. simpl. erewrite since_app by trace_list. done.
    + destruct (verify_no_intent host snap w He Ho Hs) as (_ & -> & _). done.
  - intros He Ho. destruct (verify_no_intent host snap w He Ho Hs) as (Hr & Htr & Herr & Hl).
    split; [exact Hr|]. split; [exact Herr|]. split; [exact Hl|]. split; [|done].
    rewrite Htr. do 4 apply list_elem_of_further. apply list_elem_of_here.
Qed.

(** What a submission in which [verifyOTPAndSignUp] succeeded leaves
    behind. *)
Lemma verify_signed_up (snap : PageState) (w : World) :
  signed_up (since w (handleVerify host snap w).2) = true →
  localStorage (handleVerify host snap w).2 !! "signupData" = None
  ∧ localStorage (handleVerify host snap w).2 !! "signupEmail" = None
  ∧ completed_transitions (since w (handleVerify host snap w).2) = 1%nat
  ∧ message_msg (page (handleVerify host snap w).2) = account_created
  ∧ scheduled (since w (handleVerify host snap w).2)
    = [(next_id w, {| delay := 2000; action := TNavigate "/login" (StAccountCreated true) |})]
  ∧ timers (handleVerify host snap w).2 !! next_id w
    = Some {| delay := 2000; action := TNavigate "/login" (StAccountCreated true) |}.
Proof.
  unfold handleVerify, AuthContext.verifyOTPAndSignUp.
  destruct (negb (truthy (email snap)) || negb (truthy (otp snap))) eqn:Hg.
  { simpl. erewrite since_app by trace_list. done. }
  model_unfold. simpl.
  destruct (localStorage w !! "signupData") as [s|] eqn:Hs; simpl;
    [destruct (truthy s) eqn:Hts; simpl|].
  2,3: erewrite since_app by trace_list; done.
  destruct (JSON_parse host s) as [d|e] eqn:Hp; simpl.
  2: erewrite since_app by trace_list; done.
  destruct (get_prop d "password") as [pw|e] eqn:Hpw; simpl.
  2: erewrite since_app by trace_list; done.
  destruct (get_prop d "name") as [nm|e] eqn:Hnm; simpl.
  2: erewrite since_app by trace_list; done.
  destruct (respond host _ (VerifyOtp _ _ _)) as [v|e] eqn:Hv; simpl.
  2: erewrite since_app by trace_list; done.
  destruct (error v) as [ve|] eqn:Hve; simpl.
  { erewrite since_app by trace_list. unfold signed_up. simpl. done. }
  destruct (respond host _ (SignUp _ _ _ _)) as [r|e] eqn:Hr; simpl.
  2: { erewrite since_app by trace_list. unfold signed_up, accepted. simpl.
       rewrite Hve. simpl. done. }
  destruct (error r) as [re|] eqn:Hre; simpl.
  { erewrite since_app by trace_list. unfold signed_up, accepted. simpl.
    rewrite Hve, Hre. simpl. done. }
  erewrite since_app by trace_list. intros _.
  split. { rewrite lookup_delete_ne by done. apply lookup_delete_eq. }
  split. { apply lookup_delete_eq. }
  split. { reflexivity. }
  split. { reflexivity. }
  split. { reflexivity. }
  apply lookup_insert_eq.
Qed.

(** C4: when [verifyOTPAndSignUp] succeeds inside code submission, the
    keys ['signupData'] and ['signupEmail'] are absent afterwards, the
    page announces the created account exactly once, and exactly one
    timer is started: it fires after 2000 ms and navigates to
    ['/login']. *)
Theorem successful_verification_completes (snap : PageState) (w : World) :
  signed_up (since w (handleVerify host snap w).2) = true →
  localStorage (handleVerify host snap w).2 !! "signupData" = None
  ∧ localStorage (handleVerify host snap w).2 !! "signupEmail" = None
  ∧ completed_transitions (since w (handleVerify host snap w).2) = 1%nat
  ∧ message_msg (page (handleVerify host snap w).2) = account_created
  ∧ scheduled (since w (handleVerify host snap w).2)
    = [(next_id w, {| delay := 2000; action := TNavigate "/login" (StAccountCreated true) |})]
  ∧ since (handleVerify host snap w).2 (fire (next_id w) (handleVerify host snap w).2).2
    = [Navigated "/login" (StAccountCreated true)].
Proof.
  intros H. destruct (verify_signed_up snap w H) as (Hd & He & Hc & Hm & Hs & Ht).
  split; [exact Hd|]. split; [exact He|]. split; [exact Hc|]. split; [exact Hm|].
  split; [exact Hs|].
  unfold fire. rewrite Ht. simpl. apply since_app. reflexivity.
Qed.

(** C7 (amended): a positive cooldown makes the resend handler return at
    once, leaving the world, the cooldown included, as it was; with a
    cooldown of 0 and a non-empty email the handler issues one
    [sendSignUpOTP] request and, when it is accepted, sets the cooldown
    to 60; a positive cooldown has a one-second timer pending whose
    firing takes one off, and keeps having one until it reaches 0, where
    no timer is pending. *)
Theorem resend_gate_with_email (location : Location) (snap : PageState) (w : World) :
  (0 < cooldown snap → handleResendOtp host snap w = (Normal tt, w))
  ∧ (cooldown snap = 0 → email snap ≠ "" →
       ∃ resp, calls_of (since w (handleResendOtp host snap w).2)
                 = [(SignInWithOtp (email snap) false, resp)]
             ∧ (accepted resp = true →
                  cooldown (page (handleResendOtp host snap w).2) = 60))
  ∧ (ticking w = true → 0 < cooldown (page w) →
       cooldown (page (tick host location w)) = cooldown (page w) - 1
       ∧ ticking (tick host location w) = true)
  ∧ (ticking w = true → cooldown (page w) = 0 → tick host location w = w).
Proof.
  split; [apply resend_blocked|]. split.
  - intros H0 He.
    destruct (resend_runs host snap w) as (resp & l & Htr & Hcalls & Hcd & _); [lia|done|].
    exists resp. split.
    + erewrite since_app by exact Htr. exact Hcalls.
    + intros Hacc. rewrite Hcd, Hacc. reflexivity.
  - split.
    + intros Ht Hpos. destruct (tick_props host location w Ht Hpos) as (Hc & Ht' & _). done.
    + intros Ht H0. apply tick_idle; [done|lia].
Qed.

(** C8: the resend action leaves the value stored under ['signupData']
    as it was: [sendSignUpOTP] writes ['signupEmail'] only, the handler
    writes nothing else, and neither does the re-rendering that
    follows. *)
Theorem resend_keeps_intent (location : Location) (snap : PageState) (w : World) :
  localStorage (AuthContext.sendSignUpOTP host (email snap) w).2 !! "signupData"
  = localStorage w !! "signupData"
  ∧ localStorage (handleResendOtp host snap w).2 !! "signupData"
    = localStorage w !! "signupData"
  ∧ localStorage (dispatch host location ClickResend w) !! "signupData"
    = localStorage w !! "signupData".
Proof.
  assert (Hh : ∀ s w', localStorage (handleResendOtp host s w').2 !! "signupData"
                       = localStorage w' !! "signupData").
  { intros s w'. destruct (decide (0 < cooldown s)) as [Hc|Hc].
    - by rewrite resend_blocked.
    - destruct (decide (email s = "")) as [He|He].
      + by rewrite resend_no_email.
      + destruct (resend_runs host s w' Hc He) as (_ & _ & _ & _ & _ & _ & _ & _ & ->).
        by rewrite lookup_insert_ne. }
  split; [|split].
  - rewrite sendSignUpOTP_storage. by rewrite lookup_insert_ne.
  - apply Hh.
  - unfold dispatch, handle.
    destruct (rerender_frame location (handleResendOtp host (page w) w).2) as (_ & _ & _ & -> & _).
    apply Hh.
Qed.

End Coordinator.

(** ** The route guard ([App]) *)

Section Guard.
Import App.

(** C6: while the session store is loading, [ProtectedRoute] renders the
    spinner; once it has resolved, it redirects to ['/login'] with the
    requested location as navigation state when there is no user, and
    renders its children when there is one. Every protected view of the
    route table is wrapped in it. *)
Theorem route_guard (a : AuthState) (location : Location) (children : Element) :
  (auth_loading a = true → ProtectedRoute a location children = Spinner)
  ∧ (auth_loading a = false → user a = None →
       ProtectedRoute a location children = Navigate "/login" (StFrom location) true)
  ∧ (auth_loading a = false → (∃ u, user a = Some u) →
       ProtectedRoute a location children = Fragment children)
  ∧ (∀ path p, (path, p) ∈ protected_views →
       (path, ProtectedRoute a location (View p)) ∈ routes a location).
Proof.
  unfold ProtectedRoute. split; [by intros ->|]. split; [by intros -> ->|].
  split; [by intros -> [u ->]|].
  intros path p Hin. unfold protected_views in Hin.
  repeat (apply elem_of_cons in Hin as [Hin|Hin]; [simplify_eq; unfold routes|]).
  6: by apply elem_of_nil in Hin.
  all: repeat first [apply list_elem_of_here | apply list_elem_of_further].
Qed.

End Guard.

(** ** The statements above on concrete runs *)

Section Runs.
Import Samples Scenario OtpVerification App.

(** A rejected lookup on a concrete run: the provider cannot be reached
    while the store is constructed. *)
Lemma failed_lookup_is_anonymous_witness :
  respond host_no_network (trace empty_world) GetSession = Reject (TypeError "Failed to fetch")
  ∧ requests_of (since empty_world store_built) = [GetSession]
  ∧ auth store_built = {| user := None; session := None; auth_loading := false |}.
Proof.
  split; [reflexivity|].
  pose proof (failed_lookup_is_anonymous host_no_network empty_world
                (TypeError "Failed to fetch") eq_refl) as (_ & _ & Hreq & Hauth & _).
  split; [exact Hreq | exact Hauth].
Defined.

(** C10 on a concrete run: the provider reports an error for the
    request. *)
Lemma email_stored_before_request_witness :
  (AuthContext.sendSignUpOTP host_failing "a@b.com" empty_world).1
  = Throw (ProviderError {| ae_message := "Service unavailable"; ae_status := 400 |})
  ∧ localStorage (AuthContext.sendSignUpOTP host_failing "a@b.com" empty_world).2 !! "signupEmail"
    = Some "a@b.com".
Proof.
  destruct (email_stored_before_request host_failing "a@b.com" empty_world)
    as (resp & rest & Hs & _ & _ & Hf).
  apply Hf. vm_compute in Hs. injection Hs as <- _. reflexivity.
Defined.

(** C2 on a concrete run: the page is open for [a@b.com], the user
    resends and the provider accepts; the user then types a code,
    clicks resend, a second passes, and the user clicks resend, submits
    and clicks resend again. *)
Lemma cooldown_after_resend_witness :
  ticking page_shown = true
  ∧ cooldown (page page_shown) = 0
  ∧ email (page page_shown) ≠ ""
  ∧ all_accepted (since page_shown resent_at_once) = true
  ∧ cooldown (page resent_at_once) = 60
  ∧ (elapsed host_ok verify_location impatient resent_at_once < 60)%nat
  ∧ resend_requests
      (since resent_at_once (run host_ok verify_location impatient resent_at_once))
    = []
  ∧ cooldown (page (ticks host_ok verify_location 59 resent_at_once)) = 60 - Z.of_nat 59.
Proof.
  unfold resent_at_once.
  assert (H1 : ticking page_shown = true) by (vm_compute; reflexivity).
  assert (H2 : cooldown (page page_shown) = 0) by (vm_compute; reflexivity).
  assert (H3 : email (page page_shown) ≠ "") by (vm_compute; discriminate).
  assert (H4 : all_accepted (since page_shown (dispatch host_ok verify_location ClickResend page_shown))
               = true) by (vm_compute; reflexivity).
  assert (H5 : (elapsed host_ok verify_location impatient
                  (dispatch host_ok verify_location ClickResend page_shown) < 60)%nat)
    by (vm_compute; lia).
  pose proof (cooldown_after_resend host_ok verify_location page_shown H1 H2 H3 H4) as H.
  cbv zeta in H. destruct H as (H60 & Hrun & Hk & _).
  destruct (Hrun impatient H5) as (Hreq & _).
  split; [exact H1|]. split; [exact H2|]. split; [exact H3|]. split; [exact H4|].
  split; [exact H60|]. split; [exact H5|]. split; [exact Hreq|].
  apply (Hk 59%nat). lia.
Defined.

(** C2 as the specification states it fails: right after the signup
    form requested the code for [a@b.com] and the page opened, the
    cooldown is 0 and an immediate resend reaches the provider. *)
Lemma resend_right_after_signup_is_not_blocked :
  (AuthContext.sendSignUpOTP host_ok "a@b.com" empty_world).1 = Normal tt
  ∧ cooldown (page page_shown) = 0
  ∧ requests_of (since page_shown resent_at_once) = [SignInWithOtp "a@b.com" false]
  ∧ ¬ AsStated.cooldown_after_send.
Proof.
  split; [vm_compute; reflexivity|]. split; [vm_compute; reflexivity|].
  split; [vm_compute; reflexivity|].
  intros H.
  destruct (H host_ok verify_location empty_world "a@b.com") as [H60 _];
    [discriminate | vm_compute; reflexivity |].
  vm_compute in H60. discriminate H60.
Qed.

(** C3 on a concrete run: an email and a code are typed but nothing is
    stored under ['signupData']. *)
Lemma missing_intent_stops_verification_witness :
  localStorage empty_world !! "signupData" = None
  ∧ requests_of (since empty_world (handleVerify host_ok (typed "a@b.com" "123456" 0) empty_world).2)
    = []
  ∧ error_msg (page (handleVerify host_ok (typed "a@b.com" "123456" 0) empty_world).2)
    = missing_intent.
Proof.
  assert (H : localStorage empty_world !! "signupData" = None) by reflexivity.
  destruct (missing_intent_stops_verification host_ok (typed "a@b.com" "123456" 0) empty_world H)
    as (Hreq & Hrest).
  split; [exact H|]. split; [exact Hreq|].
  apply Hrest; vm_compute; discriminate.
Defined.

(** C3 as the specification states it fails: with the code field empty
    the submission stops at the presence check, whose message is not the
    missing-intent one. *)
Lemma empty_code_fails_before_intent_check :
  localStorage empty_world !! "signupData" = None
  ∧ error_msg (page (handleVerify host_ok (typed "a@b.com" "" 0) empty_world).2)
    = fields_required
  ∧ fields_required ≠ missing_intent
  ∧ ¬ AsStated.missing_intent_always.
Proof.
  split; [reflexivity|]. split; [vm_compute; reflexivity|].
  split; [vm_compute; discriminate|].
  intros H.
  destruct (H host_ok (typed "a@b.com" "" 0) empty_world) as [Herr _]; [reflexivity|].
  vm_compute in Herr. discriminate Herr.
Qed.

(** C4 on a concrete run: the intent is stored, the code is right and
    the provider creates the account. *)
Lemma successful_verification_completes_witness :
  signed_up
    (since (with_intent empty_world)
       (handleVerify host_ok (typed "a@b.com" "123456" 0) (with_intent empty_world)).2)
  = true
  ∧ localStorage (handleVerify host_ok (typed "a@b.com" "123456" 0) (with_intent empty_world)).2
      !! "signupData" = None
  ∧ completed_transitions
      (since (with_intent empty_world)
         (handleVerify host_ok (typed "a@b.com" "123456" 0) (with_intent empty_world)).2)
    = 1%nat.
Proof.
  assert (H : signed_up
                (since (with_intent empty_world)
                   (handleVerify host_ok (typed "a@b.com" "123456" 0) (with_intent empty_world)).2)
              = true) by (vm_compute; reflexivity).
  destruct (successful_verification_completes host_ok (typed "a@b.com" "123456" 0)
              (with_intent empty_world) H) as (Hd & _ & Hc & _).
  split; [exact H|]. split; [exact Hd | exact Hc].
Defined.

(** C7 on concrete runs: a click with 5 seconds left, a click with the
    cooldown over, and a tick one second after a successful resend. *)
Lemma resend_gate_with_email_witness :
  handleResendOtp host_ok (typed "a@b.com" "" 5) empty_world = (Normal tt, empty_world)
  ∧ (∃ resp,
       calls_of (since empty_world (handleResendOtp host_ok (typed "a@b.com" "" 0) empty_world).2)
       = [(SignInWithOtp "a@b.com" false, resp)])
  ∧ cooldown (page (tick host_ok verify_location resent_at_once)) = 59.
Proof.
  split; [|split].
  - apply (resend_gate_with_email host_ok verify_location (typed "a@b.com" "" 5) empty_world).
    vm_compute. reflexivity.
  - destruct (resend_gate_with_email host_ok verify_location (typed "a@b.com" "" 0) empty_world)
      as (_ & H0 & _).
    destruct H0 as (resp & Hcalls & _); [reflexivity | vm_compute; discriminate |].
    exists resp. exact Hcalls.
  - destruct (resend_gate_with_email host_ok verify_location (typed "a@b.com" "" 0) resent_at_once)
      as (_ & _ & Htick & _).
    destruct Htick as [Hc _]; [vm_compute; reflexivity | vm_compute; reflexivity |].
    rewrite Hc. vm_compute. reflexivity.
Defined.

(** C7 as the specification states it fails: with the cooldown at 0 but
    no email on the page, the resend handler sets an error and calls no
    provider. *)
Lemma resend_without_email_calls_nothing :
  calls_of (since page_shown (handleResendOtp host_ok (typed "" "" 0) page_shown).2) = []
  ∧ error_msg (page (handleResendOtp host_ok (typed "" "" 0) page_shown).2) = email_required
  ∧ ¬ AsStated.resend_gate.
Proof.
  split; [vm_compute; reflexivity|]. split; [vm_compute; reflexivity|].
  intros H.
  destruct (H host_ok verify_location (typed "" "" 0) page_shown) as (_ & H0 & _).
  destruct H0 as (resp & Hcalls & _); [reflexivity|].
  vm_compute in Hcalls. discriminate Hcalls.
Qed.

(** C6 on concrete states of the session store, for the view at
    ['/data']. *)
Lemma route_guard_witness :
  ProtectedRoute {| user := None; session := None; auth_loading := true |}
    (MkLocation "/data" NoState) (View DataPage) = Spinner
  ∧ ProtectedRoute {| user := None; session := None; auth_loading := false |}
      (MkLocation "/data" NoState) (View DataPage)
    = Navigate "/login" (StFrom (MkLocation "/data" NoState)) true
  ∧ ProtectedRoute
      {| user := Some {| user_id := "u1"; user_email := "a@b.com" |}; session := None;
         auth_loading := false |}
      (MkLocation "/data" NoState) (View DataPage)
    = Fragment (View DataPage).
Proof.
  split; [|split].
  - apply (route_guard {| user := None; session := None; auth_loading := true |}). reflexivity.
  - apply (route_guard {| user := None; session := None; auth_loading := false |}); reflexivity.
  - apply (route_guard {| user := Some {| user_id := "u1"; user_email := "a@b.com" |};
                          session := None; auth_loading := false |}); [reflexivity|].
    eexists. reflexivity.
Defined.

(** C1 on a concrete run: the provider rejects the code, so the only
    request is the verification and its error is what the caller gets. *)
Lemma wrong_code_creates_no_account :
  requests_of
    (since empty_world
       (AuthContext.verifyOTPAndSignUp host_wrong_code "a@b.com" "000000"
          (VStr "s3cret") (VObj [("name", VStr "Ann")]) empty_world).2)
  = [VerifyOtp "a@b.com" "000000" "email"]
  ∧ (AuthContext.verifyOTPAndSignUp host_wrong_code "a@b.com" "000000"
       (VStr "s3cret") (VObj [("name", VStr "Ann")]) empty_world).1
    = Throw (ProviderError {| ae_message := "Token has expired or is invalid";
                              ae_status := 400 |}).
Proof. split; vm_compute; reflexivity. Qed.

(** C5 on a concrete run: after construction and teardown the listener
    registered at construction is still registered, and no
    [unsubscribe] was performed. *)
Lemma torn_down_store_still_listens :
  elements (listeners store_torn_down) = [0%nat]
  ∧ since empty_world store_torn_down
    = [ Call GetSession (Reject (TypeError "Failed to fetch"));
        Console LError "Error checking session:" (ArgExn (TypeError "Failed to fetch"));
        State (SetAuthLoading false);
        Subscribed 0 ].
Proof. split; vm_compute; reflexivity. Qed.

End Runs.

(** * Further properties of the code *)

(** ** The gateway and the session store *)

Section GatewayMore.
Context (host : Host).
Import App.

(** X1: [signIn], [signOut], [resetPassword], [verifyOtp] and [signUp]
    are one provider request each, with the arguments they were given;
    a rejection or an [error] field of the response is thrown to the
    caller as it is, nothing is retried, and neither the storage nor the
    state of the session store or of any page is touched. *)
Theorem gateway_operations_are_single_requests (email password name token : string) :
  fail_fast (AuthContext.signIn host email password)
    (SignInWithPassword email password) (λ _, tt)
  ∧ fail_fast (AuthContext.signOut host) SignOut (λ _, tt)
  ∧ fail_fast (AuthContext.resetPassword host email)
      (ResetPasswordForEmail email (origin host +:+ "/reset-password")) (λ _, tt)
  ∧ fail_fast (AuthContext.verifyOtp host email token)
      (VerifyOtp email token "signup") (λ _, tt)
  ∧ fail_fast (AuthContext.signUp host email password name)
      (SignUp email (VStr password) (VObj [("name", VStr name)]) (origin host +:+ "/verify"))
      data.
Proof.
  repeat split; intros w.
  all: unfold AuthContext.signIn, AuthContext.signOut, AuthContext.resetPassword,
         AuthContext.verifyOtp, AuthContext.signUp.
  all: model_unfold; simpl.
  all: destruct (respond host _ _) as [r|x] eqn:Hr; simpl;
         [destruct (error r) as [a|] eqn:Ha; simpl|].
  all: eexists; split; [erewrite since_app by trace_list; reflexivity|].
  all: simpl; rewrite ?Ha; done.
Qed.

(** X2: [verifyOTPAndSignUp] removes ['signupEmail'] exactly when both of
    its requests were accepted, and then returns the data of the created
    account; in every other case the failure of its last request is
    thrown and the storage is as it was. It never touches the state of
    the session store. *)
Theorem account_creation_outcome
    (email token : string) (password userData : value) (w : World) :
  (signed_up (since w (AuthContext.verifyOTPAndSignUp host email token password userData w).2)
   = true →
     ∃ r, last (calls_of
                  (since w (AuthContext.verifyOTPAndSignUp host email token password userData w).2))
          = Some (SignUp email password userData (origin host +:+ "/login"), Resolve r)
        ∧ (AuthContext.verifyOTPAndSignUp host email token password userData w).1
          = Normal (data r)
        ∧ localStorage (AuthContext.verifyOTPAndSignUp host email token password userData w).2
          = delete "signupEmail" (localStorage w))
  ∧ (signed_up (since w (AuthContext.verifyOTPAndSignUp host email token password userData w).2)
     = false →
       ∃ req resp e,
         last (calls_of
                 (since w (AuthContext.verifyOTPAndSignUp host email token password userData w).2))
         = Some (req, resp)
         ∧ failure resp = Some e
         ∧ (AuthContext.verifyOTPAndSignUp host email token password userData w).1 = Throw e
         ∧ localStorage (AuthContext.verifyOTPAndSignUp host email token password userData w).2
           = localStorage w)
  ∧ auth (AuthContext.verifyOTPAndSignUp host email token password userData w).2 = auth w.
Proof.
  unfold AuthContext.verifyOTPAndSignUp. model_unfold. simpl.
  destruct (respond host _ (VerifyOtp _ _ _)) as [v|e] eqn:Hv; simpl.
  - destruct (error v) as [ve|] eqn:Hve; simpl.
    + erewrite since_app by trace_list. unfold signed_up. simpl.
      split; [done|]. split; [|done]. intros _. eexists _, _, _.
      split; [reflexivity|]. simpl. rewrite Hve. done.
    + destruct (respond host _ (SignUp _ _ _ _)) as [s|e] eqn:Hs; simpl;
        [destruct (error s) as [se|] eqn:Hse; simpl|].
      all: erewrite since_app by trace_list; unfold signed_up, accepted; simpl.
      all: rewrite Hve; simpl; rewrite ?Hse; simpl.
      * split; [done|]. split; [|done]. intros _. eexists _, _, _.
        split; [reflexivity|]. simpl. rewrite Hse. done.
      * split; [|done]. intros _. eexists. done.
      * split; [done|]. split; [|done]. intros _. eexists _, _, _. done.
  - erewrite since_app by trace_list. unfold signed_up. simpl.
    split; [done|]. split; [|done]. intros _. eexists _, _, _. done.
Qed.

(** The callback of the subscription: it logs the event and stores the
    session and its user. *)
Lemma callback_props (event : string) (s : option Session) (w : World) :
  trace (AuthContext.on_auth_change event s w).2
  = trace w ++ [Console LLog "Auth state changed:" (ArgStr event);
                State (SetSession s); State (SetUser (session_user <$> s))]
  ∧ listeners (AuthContext.on_auth_change event s w).2 = listeners w
  ∧ localStorage (AuthContext.on_auth_change event s w).2 = localStorage w
  ∧ page (AuthContext.on_auth_change event s w).2 = page w
  ∧ auth (AuthContext.on_auth_change event s w).2
    = {| user := session_user <$> s; session := s; auth_loading := auth_loading (auth w) |}.
Proof.
  unfold AuthContext.on_auth_change. model_unfold. simpl.
  split; [by rewrite <- !app_assoc|]. done.
Qed.

(** The callback run once per element of [l]. *)
Lemma callbacks_props (event : string) (s : option Session) (l : list nat) (w : World) :
  ∃ tr,
    trace (foldr (λ _ w', (AuthContext.on_auth_change event s w').2) w l) = trace w ++ tr
    ∧ calls_of tr = []
    ∧ listeners (foldr (λ _ w', (AuthContext.on_auth_change event s w').2) w l) = listeners w
    ∧ localStorage (foldr (λ _ w', (AuthContext.on_auth_change event s w').2) w l)
      = localStorage w
    ∧ page (foldr (λ _ w', (AuthContext.on_auth_change event s w').2) w l) = page w
    ∧ auth_loading (auth (foldr (λ _ w', (AuthContext.on_auth_change event s w').2) w l))
      = auth_loading (auth w)
    ∧ (l = [] → foldr (λ _ w', (AuthContext.on_auth_change event s w').2) w l = w)
    ∧ (l ≠ [] →
         session (auth (foldr (λ _ w', (AuthContext.on_auth_change event s w').2) w l)) = s
         ∧ user (auth (foldr (λ _ w', (AuthContext.on_auth_change event s w').2) w l))
           = session_user <$> s).
Proof.
  induction l as [|x l IH]; cbn [foldr].
  - exists []. rewrite app_nil_r. done.
  - destruct IH as (tr & Ht & Hc & Hl & Hs & Hp & Hload & _ & _).
    destruct (callback_props event s
                (foldr (λ _ w', (AuthContext.on_auth_change event s w').2) w l))
      as (Ht' & Hl' & Hs' & Hp' & Ha').
    eexists. split; [rewrite Ht', Ht, <- app_assoc; reflexivity|].
    split; [by rewrite calls_of_app, Hc|].
    rewrite Hl', Hs', Hp', Ha'. simpl. done.
Qed.

Lemma notify_props (event : string) (s : option Session) (w : World) :
  ∃ tr,
    trace (AuthContext.notify event s w) = trace w ++ tr
    ∧ calls_of tr = []
    ∧ listeners (AuthContext.notify event s w) = listeners w
    ∧ localStorage (AuthContext.notify event s w) = localStorage w
    ∧ page (AuthContext.notify event s w) = page w
    ∧ auth_loading (auth (AuthContext.notify event s w)) = auth_loading (auth w)
    ∧ (listeners w = ∅ → AuthContext.notify event s w = w)
    ∧ (listeners w ≠ ∅ →
         session (auth (AuthContext.notify event s w)) = s
         ∧ user (auth (AuthContext.notify event s w)) = session_user <$> s).
Proof.
  unfold AuthContext.notify.
  destruct (callbacks_props event s (elements (listeners w)) w)
    as (tr & Ht & Hc & Hl & Hs & Hp & Hload & Hnil & Hcons).
  exists tr. split; [done|]. split; [done|]. split; [done|]. split; [done|].
  split; [done|]. split; [done|]. split.
  - intros He. apply Hnil. rewrite He. apply elements_empty.
  - intros Hne. apply Hcons. intros He. apply Hne. by apply elements_empty_inv in He; apply leibniz_equiv.
Qed.


(** What the construction of the session store leaves, whatever the
    lookup comes to. *)
Lemma mount_props (w : World) :
  ∃ tr,
    trace (AuthContext.mount host w) = trace w ++ tr
    ∧ requests_of tr = [GetSession]
    ∧ listeners (AuthContext.mount host w) = {[next_id w]} ∪ listeners w
    ∧ localStorage (AuthContext.mount host w) = localStorage w
    ∧ page (AuthContext.mount host w) = page w
    ∧ auth (AuthContext.mount host w)
      = {| user := session_user <$> found_session (respond host (trace w) GetSession);
           session := found_session (respond host (trace w) GetSession);
           auth_loading := false |}.
Proof.
  unfold AuthContext.mount, AuthContext.effect, AuthContext.unawaited, AuthContext.checkUser.
  model_unfold. simpl.
  destruct (respond host (trace w) GetSession) as [r|x]; simpl.
  all: eexists; split; [trace_list|]; done.
Qed.

Lemma notify_all_props (events : list (string * option Session)) : ∀ w,
  listeners w ≠ ∅ →
  user (auth w) = session_user <$> session (auth w) →
  ∃ tr,
    trace (AuthContext.notify_all events w) = trace w ++ tr
    ∧ calls_of tr = []
    ∧ localStorage (AuthContext.notify_all events w) = localStorage w
    ∧ page (AuthContext.notify_all events w) = page w
    ∧ auth (AuthContext.notify_all events w)
      = {| user := session_user <$> current_session (session (auth w)) events;
           session := current_session (session (auth w)) events;
           auth_loading := auth_loading (auth w) |}.
Proof.
  induction events as [|[event s] events IH]; intros w Hne Hinv.
  - exists []. rewrite app_nil_r. simpl. unfold current_session. simpl.
    rewrite <- Hinv. by destruct (auth w).
  - simpl.
    destruct (notify_props event s w) as (tr & Ht & Hc & Hl & Hs & Hp & Hload & _ & Hset).
    destruct (Hset Hne) as [Hsess Huser].
    destruct (IH (AuthContext.notify event s w)) as (tr' & Ht' & Hc' & Hs' & Hp' & Ha').
    { by rewrite Hl. } { by rewrite Huser, Hsess. }
    exists (tr ++ tr'). rewrite Ht', Ht, <- app_assoc. split; [done|].
    split; [by rewrite calls_of_app, Hc, Hc'|]. rewrite Hs', Hs, Hp', Hp.
    split; [done|]. split; [done|]. rewrite Ha', Hsess, Hload.
    unfold current_session. rewrite last_cons. by destruct (last events) as [[? ?]|].
Qed.

Lemma store_after_events (events : list (string * option Session)) (w : World) :
  auth (AuthContext.notify_all events (AuthContext.mount host w))
  = {| user := session_user
                 <$> current_session (found_session (respond host (trace w) GetSession)) events;
       session := current_session (found_session (respond host (trace w) GetSession)) events;
       auth_loading := false |}
  ∧ calls_of (since (AuthContext.mount host w)
                (AuthContext.notify_all events (AuthContext.mount host w))) = []
  ∧ localStorage (AuthContext.notify_all events (AuthContext.mount host w)) = localStorage w.
Proof.
  destruct (mount_props w) as (tr & Ht & Hreq & Hl & Hs & Hp & Ha).
  destruct (notify_all_props events (AuthContext.mount host w))
    as (tr' & Ht' & Hc' & Hs' & Hp' & Ha').
  { rewrite Hl. intros He. apply (not_elem_of_empty (C:=gset nat) (next_id w)).
    rewrite <- He. apply elem_of_union_l, elem_of_singleton. reflexivity. }
  { by rewrite Ha. }
  rewrite Ha', Ha, Hs', Hs. simpl. split; [done|]. split; [|done].
  by erewrite since_app.
Qed.

(** X3: whatever the lookup comes to, constructing the session store
    asks the provider for the session once, registers one subscription,
    ends with [loading] false, and holds the session the lookup found
    (none when it was rejected) together with the user of that
    session. *)
Theorem store_is_ready_after_construction (w : World) :
  requests_of (since w (AuthContext.mount host w)) = [GetSession]
  ∧ listeners (AuthContext.mount host w) = {[next_id w]} ∪ listeners w
  ∧ auth_loading (auth (AuthContext.mount host w)) = false
  ∧ session (auth (AuthContext.mount host w))
    = found_session (respond host (trace w) GetSession)
  ∧ user (auth (AuthContext.mount host w))
    = session_user <$> session (auth (AuthContext.mount host w))
  ∧ localStorage (AuthContext.mount host w) = localStorage w.
Proof.
  destruct (mount_props w) as (tr & Ht & Hreq & Hl & Hs & Hp & Ha).
  split; [by erewrite since_app|]. rewrite Ha. done.
Qed.

(** X4: after construction and any sequence of auth events pushed by the
    provider, the store holds the session of the last event (that of
    the lookup when there was none), its user is the user of that
    session, [loading] stays false, and handling the events asks the
    provider nothing and leaves the storage alone. *)
Theorem identity_follows_session (events : list (string * option Session)) (w : World) :
  session (auth (AuthContext.notify_all events (AuthContext.mount host w)))
  = current_session (found_session (respond host (trace w) GetSession)) events
  ∧ user (auth (AuthContext.notify_all events (AuthContext.mount host w)))
    = session_user
        <$> session (auth (AuthContext.notify_all events (AuthContext.mount host w)))
  ∧ auth_loading (auth (AuthContext.notify_all events (AuthContext.mount host w))) = false
  ∧ calls_of (since (AuthContext.mount host w)
                (AuthContext.notify_all events (AuthContext.mount host w))) = []
  ∧ localStorage (AuthContext.notify_all events (AuthContext.mount host w)) = localStorage w.
Proof.
  destruct (store_after_events events w) as (Ha & Hc & Hs). rewrite Ha. done.
Qed.

(** X5: once the store is constructed the route guard is never pending:
    after any sequence of auth events it renders the children when the
    store holds a session and redirects to ['/login'], carrying the
    requested location, when it holds none. *)
Theorem guard_follows_session
    (events : list (string * option Session)) (w : World)
    (location : Location) (children : Element) :
  ProtectedRoute (auth (AuthContext.notify_all events (AuthContext.mount host w)))
    location children
  = match current_session (found_session (respond host (trace w) GetSession)) events with
    | Some _ => Fragment children
    | None => Navigate "/login" (StFrom location) true
    end.
Proof.
  destruct (store_after_events events w) as (Ha & _). rewrite Ha.
  unfold ProtectedRoute. simpl.
  by destruct (current_session _ _).
Qed.

(** X6: [signOut] by itself leaves the identity and the session of the
    store as they are, so the guard shows what it showed; it is the
    auth event the provider pushes afterwards, with no session, that
    clears them, and then the guard redirects to ['/login']. *)
Theorem sign_out_redirects_after_event (w : World) (location : Location) (children : Element) :
  auth (AuthContext.signOut host (AuthContext.mount host w)).2
  = auth (AuthContext.mount host w)
  ∧ auth (AuthContext.notify "SIGNED_OUT" None
            (AuthContext.signOut host (AuthContext.mount host w)).2)
    = {| user := None; session := None; auth_loading := false |}
  ∧ ProtectedRoute
      (auth (AuthContext.notify "SIGNED_OUT" None
               (AuthContext.signOut host (AuthContext.mount host w)).2))
      location children
    = Navigate "/login" (StFrom location) true.
Proof.
  destruct (mount_props w) as (tr & Ht & Hreq & Hl & Hs & Hp & Ha).
  assert (Hout : auth (AuthContext.signOut host (AuthContext.mount host w)).2
                 = auth (AuthContext.mount host w)
               ∧ listeners (AuthContext.signOut host (AuthContext.mount host w)).2
                 = listeners (AuthContext.mount host w)).
  { unfold AuthContext.signOut. model_unfold. simpl.
    destruct (respond host _ SignOut) as [r|x]; simpl; [destruct (error r); simpl|]; done. }
  destruct Hout as [Hauth Hlis]. split; [exact Hauth|].
  destruct (notify_props "SIGNED_OUT" None (AuthContext.signOut host (AuthContext.mount host w)).2)
    as (tr' & _ & _ & _ & _ & _ & Hload & _ & Hset).
  destruct Hset as [Hsess Huser].
  { rewrite Hlis, Hl. intros He. apply (not_elem_of_empty (C:=gset nat) (next_id w)).
    rewrite <- He. apply elem_of_union_l, elem_of_singleton. reflexivity. }
  rewrite Hauth, Ha in Hload. simpl in Hload.
  assert (Hfinal : auth (AuthContext.notify "SIGNED_OUT" None
                           (AuthContext.signOut host (AuthContext.mount host w)).2)
                   = {| user := None; session := None; auth_loading := false |}).
  { destruct (auth (AuthContext.notify "SIGNED_OUT" None _)) as [u s l].
    simpl in *. by subst. }
  split; [exact Hfinal|]. by rewrite Hfinal.
Qed.

End GatewayMore.

(** ** The verification page *)

Section PageMore.
Context (host : Host).
Import OtpVerification.

Lemma navigations_app l1 l2 : navigations (l1 ++ l2) = navigations l1 ++ navigations l2.
Proof. unfold navigations. apply omap_app. Qed.

(** What one run of the effect does to the page. *)
Lemma run_effect_outcome (location : Location) (w : World) :
  ∃ tr,
    trace (run_effect location w) = trace w ++ tr
    ∧ email (page (run_effect location w))
      = settled_email location (localStorage w) (email (page w))
    ∧ otp (page (run_effect location w)) = otp (page w)
    ∧ error_msg (page (run_effect location w)) = error_msg (page w)
    ∧ loading (page (run_effect location w)) = loading (page w)
    ∧ (if no_email_known location (localStorage w)
       then navigations tr = [("/signup", NoState)]
            ∧ message_msg (page (run_effect location w)) = message_msg (page w)
       else navigations tr = []
            ∧ message_msg (page (run_effect location w)) = effect_message location
            ∧ settled_email location (localStorage w) (email (page w)) ≠ "").
Proof.
  unfold run_effect, effect, settled_email, no_email_known, effect_message, state_email.
  model_unfold. simpl.
  destruct location as [path [|e|b|from]]; simpl.
  2: destruct (truthy e) eqn:He; simpl.
  all: destruct (localStorage w !! "signupEmail") as [s|] eqn:Hs; simpl;
         [destruct (truthy s) eqn:Hts; simpl|].
  all: case_bool_decide as Hc; simpl.
  all: eexists; split; [trace_list|]; repeat split; try done.
  all: unfold truthy in *; by apply bool_decide_eq_true in He || by apply bool_decide_eq_true in Hts.
Qed.

(** X7: the page opens with empty fields and a cooldown of 0, asking the
    provider nothing. Its email is the one of the location state when
    there is one, else the one stored under ['signupEmail']; it is then
    non-empty and the page shows the matching notice. When neither is
    there, the page navigates to ['/signup'] and its email stays
    empty. *)
Theorem page_opens_with_known_email (location : Location) (w : World) :
  email (page (mount location w)) = settled_email location (localStorage w) ""
  ∧ otp (page (mount location w)) = ""
  ∧ error_msg (page (mount location w)) = ""
  ∧ loading (page (mount location w)) = false
  ∧ cooldown (page (mount location w)) = 0
  ∧ calls_of (since w (mount location w)) = []
  ∧ localStorage (mount location w) = localStorage w
  ∧ (if no_email_known location (localStorage w)
     then navigations (since w (mount location w)) = [("/signup", NoState)]
          ∧ email (page (mount location w)) = ""
     else navigations (since w (mount location w)) = []
          ∧ email (page (mount location w)) ≠ ""
          ∧ message_msg (page (mount location w)) = effect_message location).
Proof.
  unfold mount.
  destruct (run_effect_outcome location (with_page (λ _, initial_state) w))
    as (tr & Ht & He & Ho & Herr & Hl & Hnav).
  destruct (run_effect_frame location (with_page (λ _, initial_state) w))
    as (tr' & Ht' & Hc & Hs & Hcd).
  rewrite Ht in Ht'. apply app_inv_head in Ht'. subst tr'.
  rewrite He, Ho, Herr, Hl, Hcd, Hs. simpl.
  erewrite since_app by exact Ht.
  repeat (split; [done|]).
  simpl in Hnav. destruct (no_email_known location (localStorage w)) eqn:Hk.
  - destruct Hnav as [Hn _]. split; [done|].
    unfold settled_email, no_email_known in *.
    destruct (state_email location); [done|].
    destruct (localStorage w !! "signupEmail") as [s|]; [|done].
    by destruct (truthy s).
  - destruct Hnav as (Hn & Hm & Hne). done.
Qed.


(** The paths through [handleVerify] once the presence check has
    passed: the stored intent, its parsing, its two properties and the
    two provider requests. *)
Ltac verify_paths host snap w :=
  unfold handleVerify, AuthContext.verifyOTPAndSignUp;
  rewrite ?truthy_true by done; simpl; model_unfold; simpl;
  destruct (localStorage w !! "signupData") as [?s|] eqn:?Hs; simpl;
    [destruct (truthy s) eqn:?Hts; simpl;
      [destruct (JSON_parse host s) as [?d|?e] eqn:?Hp; simpl;
        [destruct (get_prop d "password") as [?pw|?e] eqn:?Hpw; simpl;
          [destruct (get_prop d "name") as [?nm|?e] eqn:?Hnm; simpl;
            [destruct (respond host _ (VerifyOtp _ _ _)) as [?v|?e] eqn:?Hv; simpl;
              [destruct (error v) as [?ve|] eqn:?Hve; simpl;
                [|destruct (respond host _ (SignUp _ _ _ _)) as [?r|?e] eqn:?Hr; simpl;
                   [destruct (error r) as [?re|] eqn:?Hre; simpl|]]|]|]|]|]|]|].

(** X8: neither handler lets an error escape: code submission and resend
    always complete normally, whatever the storage holds and whatever
    the provider answers, and once past their presence checks they
    leave [loading] false. *)
Theorem handlers_contain_errors (snap : PageState) (w : World) :
  (handleVerify host snap w).1 = Normal tt
  ∧ (handleResendOtp host snap w).1 = Normal tt
  ∧ (email snap ≠ "" → otp snap ≠ "" → loading (page (handleVerify host snap w).2) = false)
  ∧ (¬ 0 < cooldown snap → email snap ≠ "" →
       loading (page (handleResendOtp host snap w).2) = false).
Proof.
  split; [|split; [|split]].
  - destruct (decide (email snap = "")) as [He|He];
      [|destruct (decide (otp snap = "")) as [Ho|Ho]].
    1,2: by rewrite verify_guard by eauto.
    verify_paths host snap w; reflexivity.
  - destruct (decide (0 < cooldown snap)) as [Hc|Hc]; [by rewrite resend_blocked|].
    destruct (decide (email snap = "")) as [He|He]; [by rewrite resend_no_email|].
    unfold handleResendOtp, AuthContext.sendSignUpOTP.
    rewrite bool_decide_eq_false_2 by done. rewrite truthy_true by done. simpl.
    model_unfold. simpl.
    destruct (respond host _ _) as [r|e]; simpl; [destruct (error r); simpl|]; reflexivity.
  - intros He Ho. verify_paths host snap w; reflexivity.
  - intros Hc He. unfold handleResendOtp, AuthContext.sendSignUpOTP.
    rewrite bool_decide_eq_false_2 by done. rewrite truthy_true by done. simpl.
    model_unfold. simpl.
    destruct (respond host _ _) as [r|e]; simpl; [destruct (error r); simpl|]; reflexivity.
Qed.

(** X9: when a request of code submission fails, the page shows the
    message of that failure (a fixed text when it has none), announces
    nothing, starts no timer and leaves the storage as it was, the
    stored intent included: the user can submit again. *)
Theorem failed_verification_can_be_retried
    (snap : PageState) (w : World) (req : Request) (resp : Response) :
  last (calls_of (since w (handleVerify host snap w).2)) = Some (req, resp) →
  accepted resp = false →
  ∃ e, failure resp = Some e
     ∧ error_msg (page (handleVerify host snap w).2)
       = or_else (message e) "Failed to verify email"
     ∧ message_msg (page (handleVerify host snap w).2) = message_msg (page w)
     ∧ loading (page (handleVerify host snap w).2) = false
     ∧ localStorage (handleVerify host snap w).2 = localStorage w
     ∧ scheduled (since w (handleVerify host snap w).2) = []
     ∧ completed_transitions (since w (handleVerify host snap w).2) = 0%nat.
Proof.
  destruct (decide (email snap = "")) as [He|He];
    [|destruct (decide (otp snap = "")) as [Ho|Ho]].
  1,2: rewrite verify_guard by eauto; simpl; erewrite since_app by trace_list; done.
  verify_paths host snap w.
  all: erewrite since_app by trace_list; simpl; intros Hlast Hacc; simplify_eq.
  all: unfold accepted in Hacc; simpl in Hacc; rewrite ?Hve, ?Hre in Hacc; simpl in Hacc.
  all: try done.
  all: eexists; (split; [simpl; rewrite ?Hve, ?Hre; simpl; reflexivity|]); done.
Qed.

(** X10: a stored intent that is the empty string counts as missing; one
    that does not parse, or parses to [null], makes the submission show
    the message of the language error. In neither case is the provider
    called or the storage changed. *)
Theorem malformed_intent_reaches_no_provider (snap : PageState) (w : World) (s : string) :
  email snap ≠ "" → otp snap ≠ "" →
  localStorage w !! "signupData" = Some s →
  (s = "" →
     error_msg (page (handleVerify host snap w).2) = missing_intent
     ∧ calls_of (since w (handleVerify host snap w).2) = []
     ∧ localStorage (handleVerify host snap w).2 = localStorage w)
  ∧ (∀ e, s ≠ "" →
       (JSON_parse host s = Throw e
        ∨ ∃ v, JSON_parse host s = Normal v ∧ get_prop v "password" = Throw e) →
       error_msg (page (handleVerify host snap w).2)
       = or_else (message e) "Failed to verify email"
       ∧ calls_of (since w (handleVerify host snap w).2) = []
       ∧ localStorage (handleVerify host snap w).2 = localStorage w).
Proof.
  intros He Ho Hs. split.
  - intros ->. unfold handleVerify. rewrite !truthy_true by done. simpl.
    model_unfold. simpl. rewrite Hs. simpl.
    erewrite since_app by trace_list. done.
  - intros e Hne Hbad. unfold handleVerify. rewrite !truthy_true by done. simpl.
    model_unfold. simpl. rewrite Hs. simpl. rewrite (truthy_true s) by done. simpl.
    destruct Hbad as [Hp | (v & Hp & Hpw)]; rewrite Hp; simpl; rewrite ?Hpw; simpl.
    all: erewrite since_app by trace_list; done.
Qed.

(** X11: the requests of code submission carry the email and the code of
    the page, the password of the stored intent and, as profile, its
    name alone; the email of the stored intent is not sent. The
    account-creation request comes second or not at all. *)
Theorem verification_sends_page_email
    (snap : PageState) (w : World) (s : string) (v pw nm : value) :
  email snap ≠ "" → otp snap ≠ "" →
  localStorage w !! "signupData" = Some s → s ≠ "" →
  JSON_parse host s = Normal v →
  get_prop v "password" = Normal pw →
  get_prop v "name" = Normal nm →
  requests_of (since w (handleVerify host snap w).2)
  = [VerifyOtp (email snap) (otp snap) "email"]
  ∨ requests_of (since w (handleVerify host snap w).2)
    = [VerifyOtp (email snap) (otp snap) "email";
       SignUp (email snap) pw (VObj [("name", nm)]) (origin host +:+ "/login")].
Proof.
  intros He Ho Hs Hne Hp Hpw Hnm. unfold handleVerify, AuthContext.verifyOTPAndSignUp.
  rewrite !truthy_true by done. simpl. model_unfold. simpl. rewrite Hs. simpl.
  rewrite (truthy_true s) by done. simpl. rewrite Hp. simpl. rewrite Hpw, Hnm. simpl.
  destruct (respond host _ (VerifyOtp _ _ _)) as [r1|e1]; simpl;
    [destruct (error r1); simpl;
      [|destruct (respond host _ (SignUp _ _ _ _)) as [r2|e2]; simpl;
         [destruct (error r2); simpl|]]|].
  all: erewrite since_app by trace_list; simpl; auto.
Qed.


(** *** Resend and the effect that follows it *)

Lemma state_email_truthy (location : Location) (e : string) :
  state_email location = Some e → e ≠ "".
Proof.
  destruct location as [path [|e'|b|from]]; simpl; try done.
  destruct (truthy e') eqn:Ht; [|done]. intros [= <-].
  by apply bool_decide_eq_true in Ht.
Qed.

Lemma settled_email_known (location : Location) (storage : gmap string string)
    (current s : string) :
  storage !! "signupEmail" = Some s → s ≠ "" →
  settled_email location storage current ≠ "" ∧ no_email_known location storage = false.
Proof.
  intros Hs Hne. unfold settled_email, no_email_known. rewrite Hs.
  destruct (state_email location) as [e|] eqn:He.
  - split; [by eapply state_email_truthy|done].
  - by rewrite truthy_true.
Qed.

(** Everything the resend handler does once it is past its two
    checks. *)
Lemma resend_outcome (snap : PageState) (w : World) :
  ¬ 0 < cooldown snap → email snap ≠ "" →
  ∃ resp,
    calls_of (since w (handleResendOtp host snap w).2)
    = [(SignInWithOtp (email snap) false, resp)]
    ∧ match failure resp with
      | Some e =>
          error_msg (page (handleResendOtp host snap w).2)
          = or_else (message e) "Failed to resend verification code"
          ∧ message_msg (page (handleResendOtp host snap w).2) = message_msg (page w)
          ∧ cooldown (page (handleResendOtp host snap w).2) = cooldown (page w)
      | None =>
          error_msg (page (handleResendOtp host snap w).2) = ""
          ∧ cooldown (page (handleResendOtp host snap w).2) = 60
      end
    ∧ loading (page (handleResendOtp host snap w).2) = false
    ∧ email (page (handleResendOtp host snap w).2) = email (page w)
    ∧ otp (page (handleResendOtp host snap w).2) = otp (page w)
    ∧ page_effect (handleResendOtp host snap w).2 = page_effect w
    ∧ timers (handleResendOtp host snap w).2 = timers w
    ∧ next_id (handleResendOtp host snap w).2 = next_id w
    ∧ localStorage (handleResendOtp host snap w).2
      = <["signupEmail" := email snap]> (localStorage w)
    ∧ navigations (since w (handleResendOtp host snap w).2) = [].
Proof.
  intros Hc He. unfold handleResendOtp, AuthContext.sendSignUpOTP.
  rewrite bool_decide_eq_false_2 by done. rewrite truthy_true by done. simpl.
  model_unfold. simpl.
  destruct (respond host _ _) as [r|e] eqn:Hr; simpl;
    [destruct (error r) as [a|] eqn:Ha; simpl|].
  all: erewrite !since_app by trace_list.
  all: eexists; split; [reflexivity|].
  all: simpl; rewrite ?Ha; simpl; done.
Qed.

Lemma rerender_runs_effect (location : Location) (w : World) (d : Z) :
  page_effect w = Some (d, None) → d ≠ cooldown (page w) →
  rerender location w = run_effect location w.
Proof.
  intros He Hd. unfold rerender. rewrite He. by rewrite bool_decide_eq_false_2.
Qed.

(** X12: when the request of a resend fails, the page shows the message
    of the failure (a fixed text when it has none) and nothing else
    changes on it: the cooldown stays where it was, no timer is started
    and the notice is the one it showed; another resend is possible at
    once. *)
Theorem failed_resend_keeps_cooldown (location : Location) (w : World) :
  ticking w = true →
  ¬ 0 < cooldown (page w) →
  email (page w) ≠ "" →
  all_accepted (since w (dispatch host location ClickResend w)) = false →
  ∃ resp e,
    calls_of (since w (dispatch host location ClickResend w))
    = [(SignInWithOtp (email (page w)) false, resp)]
    ∧ failure resp = Some e
    ∧ error_msg (page (dispatch host location ClickResend w))
      = or_else (message e) "Failed to resend verification code"
    ∧ cooldown (page (dispatch host location ClickResend w)) = cooldown (page w)
    ∧ message_msg (page (dispatch host location ClickResend w)) = message_msg (page w)
    ∧ email (page (dispatch host location ClickResend w)) = email (page w)
    ∧ loading (page (dispatch host location ClickResend w)) = false
    ∧ timers (dispatch host location ClickResend w) = timers w
    ∧ ticking (dispatch host location ClickResend w) = true.
Proof.
  intros Ht Hc He Hacc.
  destruct (resend_outcome (page w) w Hc He)
    as (resp & Hcalls & Hout & Hl & Hem & _ & Hpe & Htm & Hid & _ & _).
  destruct (ticking_inv w Ht) as (c & Heff & _).
  unfold dispatch, handle in *.
  destruct (failure resp) as [e|] eqn:Hf.
  - destruct Hout as (Herr & Hmsg & Hcd).
    destruct (settle_quiet location w (handleResendOtp host (page w) w).2 Ht Hpe Hcd)
      as [Hre Ht']; [by rewrite Htm|by rewrite Htm|lia|].
    rewrite Hre in *. exists resp, e. done.
  - exfalso. destruct Hout as (_ & Hcd).
    destruct (rerender_frame location (handleResendOtp host (page w) w).2)
      as (l' & Htr' & Hcalls' & _).
    assert (Htr : ∃ l, trace (handleResendOtp host (page w) w).2 = trace w ++ l
                     ∧ calls_of l = [(SignInWithOtp (email (page w)) false, resp)]).
    { destruct (resend_runs host (page w) w Hc He) as (resp' & l & Htr & Hcl & _).
      exists l. split; [done|]. erewrite since_app in Hcalls by exact Htr. done. }
    destruct Htr as (l & Htr & Hcl).
    erewrite since_app in Hacc; [|rewrite Htr', Htr, <- app_assoc; reflexivity].
    unfold all_accepted in Hacc. rewrite calls_of_app, Hcl, Hcalls' in Hacc.
    simpl in Hacc. unfold accepted in Hacc. rewrite Hf in Hacc. done.
Qed.

(** After a successful resend the effect has run again. *)
Lemma effect_replaces_resent_notice_aux (location : Location) (w : World) :
  ticking w = true →
  cooldown (page w) = 0 →
  email (page w) ≠ "" →
  all_accepted (since w (dispatch host location ClickResend w)) = true →
  email (page (dispatch host location ClickResend w))
  = settled_email location (<["signupEmail" := email (page w)]> (localStorage w))
      (email (page w))
  ∧ email (page (dispatch host location ClickResend w)) ≠ ""
  ∧ localStorage (dispatch host location ClickResend w) !! "signupEmail"
    = Some (email (page w)).
Proof.
  intros Ht H0 He Hacc.
  destruct (resend_outcome (page w) w)
    as (resp & Hcalls & Hout & Hl & Hem & _ & Hpe & _ & _ & Hs & _); [lia|done|].
  destruct (ticking_inv w Ht) as (c & Heff & _ & Hz & _).
  rewrite (Hz ltac:(lia)) in Heff.
  unfold dispatch, handle in *.
  destruct (rerender_frame location (handleResendOtp host (page w) w).2)
    as (l' & Htr' & Hc' & Hst & _).
  rewrite Hst, Hs, lookup_insert_eq.
  destruct (failure resp) as [e|] eqn:Hf.
  { exfalso.
    destruct (resend_runs host (page w) w) as (resp2 & l & Htr & Hcl & _); [lia|done|].
    erewrite since_app in Hcalls by exact Htr. rewrite Hcl in Hcalls. injection Hcalls as ->.
    erewrite since_app in Hacc; [|rewrite Htr', Htr, <- app_assoc; reflexivity].
    unfold all_accepted in Hacc. rewrite calls_of_app, Hcl, Hc' in Hacc. simpl in Hacc.
    unfold accepted in Hacc. by rewrite Hf in Hacc. }
  destruct Hout as (Herr & Hcd).
  rewrite (rerender_runs_effect location _ (cooldown (page w)));
    [|by rewrite Hpe|rewrite Hcd; lia].
  destruct (run_effect_outcome location (handleResendOtp host (page w) w).2)
    as (tr & _ & Hemail & _).
  rewrite Hs, Hem in Hemail. rewrite Hemail.
  split; [done|]. split; [|done].
  by eapply settled_email_known; [apply lookup_insert_eq|].
Qed.

(** X13: a successful resend sets the error to empty and, once the
    effect has run again for the new cooldown, the page shows the notice
    of the effect in place of the "resent" notice of the handler, with
    the email the effect settles on. *)
Theorem effect_replaces_resent_notice (location : Location) (w : World) :
  ticking w = true →
  cooldown (page w) = 0 →
  email (page w) ≠ "" →
  all_accepted (since w (dispatch host location ClickResend w)) = true →
  message_msg (page (dispatch host location ClickResend w)) = effect_message location
  ∧ effect_message location
    ≠ "Verification code resent! Please check your inbox and spam folder."
  ∧ email (page (dispatch host location ClickResend w))
    = settled_email location (<["signupEmail" := email (page w)]> (localStorage w))
        (email (page w))
  ∧ email (page (dispatch host location ClickResend w)) ≠ ""
  ∧ error_msg (page (dispatch host location ClickResend w)) = ""
  ∧ loading (page (dispatch host location ClickResend w)) = false
  ∧ navigations (since w (dispatch host location ClickResend w)) = [].
Proof.
  intros Ht H0 He Hacc.
  assert (Hdiff : effect_message location
                  ≠ "Verification code resent! Please check your inbox and spam folder.").
  { unfold effect_message. by destruct (state_email location). }
  destruct (resend_outcome (page w) w)
    as (resp & Hcalls & Hout & Hl & Hem & _ & Hpe & _ & _ & Hs & Hnav0); [lia|done|].
  destruct (dispatch_resend_runs host location w Ht H0 He) as (resp' & Hcalls' & _).
  destruct (ticking_inv w Ht) as (c & Heff & _ & Hz & _).
  rewrite (Hz ltac:(lia)) in Heff.
  destruct (resend_runs host (page w) w) as (resp2 & l & Htr & Hcl & _); [lia|done|].
  erewrite since_app in Hcalls by exact Htr. rewrite Hcl in Hcalls. injection Hcalls as <-.
  erewrite since_app in Hnav0 by exact Htr.
  unfold dispatch, handle in *.
  destruct (failure resp2) as [e|] eqn:Hf.
  { exfalso. unfold all_accepted in Hacc. rewrite Hcalls' in Hacc. simpl in Hacc.
    destruct (rerender_frame location (handleResendOtp host (page w) w).2)
      as (l' & Htr' & Hc' & _).
    erewrite since_app in Hcalls'; [|rewrite Htr', Htr, <- app_assoc; reflexivity].
    rewrite calls_of_app, Hcl, Hc' in Hcalls'. injection Hcalls' as <-.
    unfold accepted in Hacc. by rewrite Hf in Hacc. }
  destruct Hout as (Herr & Hcd).
  rewrite (rerender_runs_effect location _ (cooldown (page w)));
    [|by rewrite Hpe|rewrite Hcd; lia].
  destruct (run_effect_outcome location (handleResendOtp host (page w) w).2)
    as (tr & Htr2 & Hemail & _ & Herr2 & Hl2 & Hnav).
  rewrite Hs, Hem in Hemail, Hnav.
  destruct (settled_email_known location (<["signupEmail" := email (page w)]> (localStorage w))
              (email (page w)) (email (page w))) as [Hne Hk]; [apply lookup_insert_eq|done|].
  rewrite Hk in Hnav. destruct Hnav as (Hn & Hm & _).
  rewrite Hm, Hemail, Herr2, Herr, Hl2, Hl.
  repeat (split; [done|]).
  erewrite since_app; [|rewrite Htr2, Htr, <- app_assoc; reflexivity].
  by rewrite navigations_app, Hn, Hnav0.
Qed.


(** *** Seconds passing *)

(** What the page shows after a second of cooldown has passed: the
    effect runs again. *)
Lemma tick_outcome (location : Location) (w : World) :
  ticking w = true → 0 < cooldown (page w) →
  email (page (tick host location w))
  = settled_email location (localStorage w) (email (page w))
  ∧ (if no_email_known location (localStorage w)
     then navigations (since w (tick host location w)) = [("/signup", NoState)]
          ∧ message_msg (page (tick host location w)) = message_msg (page w)
     else navigations (since w (tick host location w)) = []
          ∧ message_msg (page (tick host location w)) = effect_message location).
Proof.
  intros Ht Hpos. destruct (ticking_inv w Ht) as (c & He & Hc & _).
  destruct (Hc Hpos) as (id & -> & Htimer & _).
  unfold tick. rewrite He. unfold dispatch, handle, fire. rewrite Htimer.
  cbn [action run_timer]. unfold set_state. cbn [snd].
  set (w1 := emit _ _).
  assert (Hpe : page_effect w1 = Some (cooldown (page w), Some (ClearTimeout id))) by done.
  unfold rerender. rewrite Hpe. rewrite bool_decide_eq_false_2 by (simpl; lia).
  cbn [run_cleanup]. unfold clearTimeout. cbn [snd].
  set (w2 := emit _ _).
  destruct (run_effect_outcome location w2) as (tr & Htr & Hemail & _ & _ & _ & Hnav).
  assert (Hs2 : localStorage w2 = localStorage w) by done.
  assert (He2 : email (page w2) = email (page w)) by done.
  assert (Hm2 : message_msg (page w2) = message_msg (page w)) by done.
  assert (Ht2 : trace w2
                = trace w ++ [State (SetCooldown (cooldown (page w) - 1)); TimeoutCleared id]).
  { subst w2 w1. simpl. by rewrite <- app_assoc. }
  rewrite Hs2, He2, Hm2 in *. split; [exact Hemail|].
  erewrite since_app; [|rewrite Htr, Ht2, <- app_assoc; reflexivity].
  rewrite navigations_app. simpl.
  destruct (no_email_known location (localStorage w));
    [destruct Hnav as (? & ?)|destruct Hnav as (? & ? & ?)]; done.
Qed.

Lemma ticks_keep_email (location : Location) (k : nat) : ∀ w s,
  ticking w = true → Z.of_nat k ≤ cooldown (page w) →
  localStorage w !! "signupEmail" = Some s → s ≠ "" →
  email (page w) ≠ "" →
  email (page (ticks host location k w)) ≠ "".
Proof.
  induction k as [|k IH]; intros w s Ht Hk Hs Hne He; [done|].
  simpl. destruct (tick_props host location w Ht) as (Hc & Ht' & _ & Hst); [lia|].
  destruct (tick_outcome location w Ht) as (Hem & _); [lia|].
  eapply (IH _ s); [done|lia|by rewrite Hst|done|].
  rewrite Hem. by eapply settled_email_known.
Qed.

(** X14: sixty seconds after a successful resend the cooldown is 0, no
    cooldown timer is pending any more, the page still has an email, and
    a resend reaches the provider again. *)
Theorem resend_allowed_again_after_sixty_seconds (location : Location) (w : World) :
  ticking w = true →
  cooldown (page w) = 0 →
  email (page w) ≠ "" →
  all_accepted (since w (dispatch host location ClickResend w)) = true →
  let later := ticks host location 60 (dispatch host location ClickResend w) in
  cooldown (page later) = 0
  ∧ tick host location later = later
  ∧ email (page later) ≠ ""
  ∧ ∃ resp, calls_of (since later (dispatch host location ClickResend later))
            = [(SignInWithOtp (email (page later)) false, resp)].
Proof.
  intros Ht H0 He Hacc later.
  destruct (dispatch_resend_runs host location w Ht H0 He) as (resp & Hcalls & Hok).
  assert (Hacc' := Hacc). unfold all_accepted in Hacc'. rewrite Hcalls in Hacc'.
  simpl in Hacc'. rewrite andb_true_r in Hacc'. destruct (Hok Hacc') as [H60 Ht'].
  destruct (ticks_props host location 60 _ Ht') as (Hcd & Htl & Hst); [lia|].
  fold later in Hcd, Htl, Hst.
  destruct (effect_replaces_resent_notice_aux location w Ht H0 He Hacc) as (Hem & Hne & Hsto).
  assert (Hlater : email (page later) ≠ "").
  { eapply (ticks_keep_email location 60 _ (email (page w))); [done|lia|done|done|done]. }
  split; [lia|]. split; [apply tick_idle; [done|lia]|]. split; [done|].
  destruct (dispatch_resend_runs host location later Htl) as (resp' & Hc' & _); [lia|done|].
  eauto.
Qed.


(** X15: whatever is done on the page, as long as it has not navigated
    away (so that it is still on screen), the record of the effect stays
    up to date with the cooldown, a one-second timer carrying the
    cooldown less one is pending exactly while the cooldown is positive,
    and no other cooldown timer is pending: the cooldown cannot be
    counted down twice in a second. *)
Theorem page_keeps_one_cooldown_timer (location : Location) (acts : list Action) (w : World) :
  ticking w = true →
  navigations (since w (run host location acts w)) = [] →
  (∃ c, page_effect (run host location acts w)
        = Some (cooldown (page (run host location acts w)), c))
  ∧ (0 < cooldown (page (run host location acts w)) →
       ∃ id, timers (run host location acts w) !! id
             = Some {| delay := 1000;
                       action := TSetCooldown (cooldown (page (run host location acts w)) - 1) |})
  ∧ (∀ id t, timers (run host location acts w) !! id = Some t →
       is_cooldown_timer t = true →
       0 < cooldown (page (run host location acts w))
       ∧ t = {| delay := 1000;
                action := TSetCooldown (cooldown (page (run host location acts w)) - 1) |})
  ∧ (∀ id id' t t',
       timers (run host location acts w) !! id = Some t →
       timers (run host location acts w) !! id' = Some t' →
       is_cooldown_timer t = true → is_cooldown_timer t' = true → id = id').
Proof.
  intros Ht _. pose proof (run_ticking host location acts w Ht) as Hr.
  destruct (ticking_inv _ Hr) as (c & He & Hp & Hz & Htidy).
  split; [eauto|]. split.
  { intros Hpos. destruct (Hp Hpos) as (id & _ & Hl & _). eauto. }
  split.
  - intros id t Hl Hc.
    destruct (cooldown_timer_current _ id t Hr Hl Hc) as [Hpos _]. split; [done|].
    destruct (Hp Hpos) as (id' & -> & Hl' & _).
    destruct (Htidy id t Hl Hc) as (deps & Hd). rewrite He in Hd.
    injection Hd as _ <-. rewrite Hl in Hl'. by injection Hl' as ->.
  - intros id id' t t' Hl Hl' Hc Hc'.
    destruct (Htidy id t Hl Hc) as (deps & Hd).
    destruct (Htidy id' t' Hl' Hc') as (deps' & Hd').
    rewrite Hd in Hd'. by simplify_eq.
Qed.

(** Submitting the code leaves React no effect to re-run. *)
Lemma dispatch_submit_settled (location : Location) (w : World) :
  ticking w = true →
  dispatch host location Submit w = (handleVerify host (page w) w).2
  ∧ ticking (handleVerify host (page w) w).2 = true.
Proof.
  intros Ht. unfold dispatch, handle.
  destruct (handleVerify_frame host (page w) w) as (l & Htr & Hreq & Heff & Hcd & Htm & Hid).
  apply (settle_quiet location w); try done.
  - intros id t Hl Hc. destruct Htm as [-> | ->]; [done|].
    rewrite lookup_insert_ne; [done|]. intros <-.
    destruct (cooldown_timer_current w _ t Ht Hl Hc) as [_ Hlt]. lia.
  - intros id t Hl Hc. destruct Htm as [Htm | Htm]; rewrite Htm in Hl; [done|].
    apply lookup_insert_Some in Hl as [[_ <-]|[_ Hl]]; done.
Qed.

(** X16: a successful verification while the cooldown is still running
    leaves the cooldown timer pending. When it fires, the effect runs
    again and finds ['signupEmail'] removed: on a page whose location
    carries the email it replaces the success notice by its own, and on
    a page whose location carries none it navigates to ['/signup']. *)
Theorem second_after_success_reruns_effect (location : Location) (w : World) :
  ticking w = true →
  0 < cooldown (page w) →
  signed_up (since w (dispatch host location Submit w)) = true →
  message_msg (page (dispatch host location Submit w)) = account_created
  ∧ match state_email location with
    | Some _ =>
        navigations (since (dispatch host location Submit w)
                       (tick host location (dispatch host location Submit w))) = []
        ∧ message_msg (page (tick host location (dispatch host location Submit w)))
          = effect_message location
    | None =>
        navigations (since (dispatch host location Submit w)
                       (tick host location (dispatch host location Submit w)))
        = [("/signup", NoState)]
        ∧ message_msg (page (tick host location (dispatch host location Submit w)))
          = account_created
    end.
Proof.
  intros Ht Hpos Hok.
  destruct (dispatch_submit_settled location w Ht) as [Hd Ht']. rewrite Hd in *.
  destruct (verify_signed_up host (page w) w Hok) as (_ & Hemail & _ & Hmsg & _).
  destruct (handleVerify_frame host (page w) w) as (_ & _ & _ & _ & Hcd & _).
  destruct (tick_outcome location (handleVerify host (page w) w).2 Ht') as (_ & Hnav);
    [lia|].
  split; [exact Hmsg|].
  unfold no_email_known in Hnav. rewrite Hemail in Hnav.
  destruct (state_email location); [done|]. by rewrite Hmsg in Hnav.
Qed.

End PageMore.

(** ** The route table *)

Section RoutesMore.
Import App.

(** X17: through no route of the table does a user without identity, or
    one whose session is still being looked up, get a protected page on
    screen: whatever a route shows then is one of the five public pages.
    With an identity and the lookup over, every protected route shows
    its page. *)
Theorem anonymous_sees_no_protected_page (a : AuthState) (location : Location) :
  (auth_loading a = true ∨ user a = None →
     ∀ path el p, (path, el) ∈ routes a location → shows el = Some p →
       p ∈ [Home; Login; Signup; OtpVerificationPage; PasswordReset])
  ∧ (auth_loading a = false → (∃ u, user a = Some u) →
       ∀ path p, (path, p) ∈ protected_views →
         ∃ el, (path, el) ∈ routes a location ∧ shows el = Some p).
Proof.
  split.
  - intros Hanon path el p Hin Hshow. unfold routes, ProtectedRoute in Hin.
    assert (Hguard : ∀ c, shows (if auth_loading a then Spinner
                                  else match user a with
                                       | Some _ => Fragment c
                                       | None => Navigate "/login" (StFrom location) true
                                       end) = None).
    { intros c. destruct Hanon as [-> | ->]; [done|]. by destruct (auth_loading a). }
    repeat (apply elem_of_cons in Hin as [Hin|Hin];
            [injection Hin as -> ->; rewrite ?Hguard in Hshow; simpl in Hshow; simplify_eq|]).
    all: try (by apply elem_of_nil in Hin).
    all: repeat first [apply list_elem_of_here | apply list_elem_of_further].
  - intros Hl [u Hu] path p Hin. unfold protected_views in Hin.
    exists (ProtectedRoute a location (View p)). split.
    + repeat (apply elem_of_cons in Hin as [Hin|Hin]; [simplify_eq; unfold routes|]).
      6: by apply elem_of_nil in Hin.
      all: repeat first [apply list_elem_of_here | apply list_elem_of_further].
    + unfold ProtectedRoute. by rewrite Hl, Hu.
Qed.

End RoutesMore.

(** ** The further properties on concrete runs *)

Section MoreRuns.
Import Samples Scenario MoreScenarios OtpVerification App.

(** X2 on a concrete run: both requests are accepted. *)
Lemma account_creation_outcome_witness :
  signed_up
    (since code_requested
       (AuthContext.verifyOTPAndSignUp host_ok "a@b.com" "123456" (VStr "s3cret")
          (VObj [("name", VStr "Ann")]) code_requested).2)
  = true
  ∧ ∃ r,
      (AuthContext.verifyOTPAndSignUp host_ok "a@b.com" "123456" (VStr "s3cret")
         (VObj [("name", VStr "Ann")]) code_requested).1
      = Normal (data r)
      ∧ localStorage
          (AuthContext.verifyOTPAndSignUp host_ok "a@b.com" "123456" (VStr "s3cret")
             (VObj [("name", VStr "Ann")]) code_requested).2
        = delete "signupEmail" (localStorage code_requested).
Proof.
  assert (H : signed_up
                (since code_requested
                   (AuthContext.verifyOTPAndSignUp host_ok "a@b.com" "123456" (VStr "s3cret")
                      (VObj [("name", VStr "Ann")]) code_requested).2)
              = true) by (vm_compute; reflexivity).
  split; [exact H|].
  destruct (account_creation_outcome host_ok "a@b.com" "123456" (VStr "s3cret")
              (VObj [("name", VStr "Ann")]) code_requested) as (Hok & _).
  destruct (Hok H) as (r & _ & Hn & Hs). exists r. split; [exact Hn | exact Hs].
Defined.

(** X8 on a concrete run: the provider fails and a code is submitted
    with nothing stored. *)
Lemma handlers_contain_errors_witness :
  (handleVerify host_failing (typed "a@b.com" "123456" 0) empty_world).1 = Normal tt
  ∧ loading (page (handleVerify host_failing (typed "a@b.com" "123456" 0) empty_world).2)
    = false
  ∧ loading (page (handleResendOtp host_failing (typed "a@b.com" "123456" 0) empty_world).2)
    = false.
Proof.
  destruct (handlers_contain_errors host_failing (typed "a@b.com" "123456" 0) empty_world)
    as (Hv & _ & Hlv & Hlr).
  split; [exact Hv|]. split.
  - apply Hlv; vm_compute; discriminate.
  - apply Hlr; [vm_compute; discriminate | vm_compute; discriminate].
Defined.

(** X9 on a concrete run: the provider rejects the code. *)
Lemma failed_verification_can_be_retried_witness :
  last (calls_of
          (since (with_intent empty_world)
             (handleVerify host_wrong_code (typed "a@b.com" "000000" 0)
                (with_intent empty_world)).2))
  = Some (VerifyOtp "a@b.com" "000000" "email",
          error_response "Token has expired or is invalid")
  ∧ accepted (error_response "Token has expired or is invalid") = false
  ∧ error_msg
      (page (handleVerify host_wrong_code (typed "a@b.com" "000000" 0)
               (with_intent empty_world)).2)
    = "Token has expired or is invalid"
  ∧ localStorage
      (handleVerify host_wrong_code (typed "a@b.com" "000000" 0) (with_intent empty_world)).2
    = localStorage (with_intent empty_world).
Proof.
  assert (H1 : last (calls_of
                       (since (with_intent empty_world)
                          (handleVerify host_wrong_code (typed "a@b.com" "000000" 0)
                             (with_intent empty_world)).2))
               = Some (VerifyOtp "a@b.com" "000000" "email",
                       error_response "Token has expired or is invalid"))
    by (vm_compute; reflexivity).
  assert (H2 : accepted (error_response "Token has expired or is invalid") = false)
    by reflexivity.
  destruct (failed_verification_can_be_retried host_wrong_code (typed "a@b.com" "000000" 0)
              (with_intent empty_world) _ _ H1 H2) as (e & Hf & Herr & _ & _ & Hs & _).
  split; [exact H1|]. split; [exact H2|]. split; [|exact Hs].
  rewrite Herr. injection Hf as <-. reflexivity.
Defined.

(** X10 on a concrete run: the stored text is not JSON. *)
Lemma malformed_intent_reaches_no_provider_witness :
  localStorage broken_intent !! "signupData" = Some "{oops"
  ∧ JSON_parse host_ok "{oops" = Throw (SyntaxError "Unexpected end of JSON input")
  ∧ error_msg (page (handleVerify host_ok (typed "a@b.com" "123456" 0) broken_intent).2)
    = "Unexpected end of JSON input"
  ∧ calls_of
      (since broken_intent (handleVerify host_ok (typed "a@b.com" "123456" 0) broken_intent).2)
    = [].
Proof.
  assert (H1 : localStorage broken_intent !! "signupData" = Some "{oops") by reflexivity.
  assert (H2 : JSON_parse host_ok "{oops" = Throw (SyntaxError "Unexpected end of JSON input"))
    by (vm_compute; reflexivity).
  destruct (malformed_intent_reaches_no_provider host_ok (typed "a@b.com" "123456" 0)
              broken_intent "{oops") as (_ & Hbad);
    [vm_compute; discriminate | vm_compute; discriminate | exact H1 |].
  destruct (Hbad (SyntaxError "Unexpected end of JSON input")) as (Herr & Hcalls & _);
    [discriminate | left; exact H2 |].
  split; [exact H1|]. split; [exact H2|]. split; [|exact Hcalls].
  rewrite Herr. reflexivity.
Defined.

(** X11 on a concrete run: the stored intent is the one of [a@b.com]. *)
Lemma verification_sends_page_email_witness :
  requests_of
    (since (with_intent empty_world)
       (handleVerify host_ok (typed "x@y.org" "123456" 0) (with_intent empty_world)).2)
  = [VerifyOtp "x@y.org" "123456" "email"]
  ∨ requests_of
      (since (with_intent empty_world)
         (handleVerify host_ok (typed "x@y.org" "123456" 0) (with_intent empty_world)).2)
    = [VerifyOtp "x@y.org" "123456" "email";
       SignUp "x@y.org" (VStr "s3cret") (VObj [("name", VStr "Ann")])
         (origin host_ok +:+ "/login")].
Proof.
  apply (verification_sends_page_email host_ok (typed "x@y.org" "123456" 0)
           (with_intent empty_world) intent_json intent_value (VStr "s3cret") (VStr "Ann")).
  - vm_compute. discriminate.
  - vm_compute. discriminate.
  - reflexivity.
  - vm_compute. discriminate.
  - vm_compute. reflexivity.
  - reflexivity.
  - reflexivity.
Defined.

(** X12 on a concrete run: the page is open and the provider refuses the
    resend. *)
Lemma failed_resend_keeps_cooldown_witness :
  ticking page_shown = true
  ∧ all_accepted (since page_shown (dispatch host_failing verify_location ClickResend page_shown))
    = false
  ∧ cooldown (page (dispatch host_failing verify_location ClickResend page_shown))
    = cooldown (page page_shown)
  ∧ timers (dispatch host_failing verify_location ClickResend page_shown) = timers page_shown.
Proof.
  assert (H1 : ticking page_shown = true) by (vm_compute; reflexivity).
  assert (H2 : ¬ 0 < cooldown (page page_shown)) by (vm_compute; discriminate).
  assert (H3 : email (page page_shown) ≠ "") by (vm_compute; discriminate).
  assert (H4 : all_accepted
                 (since page_shown (dispatch host_failing verify_location ClickResend page_shown))
               = false) by (vm_compute; reflexivity).
  destruct (failed_resend_keeps_cooldown host_failing verify_location page_shown H1 H2 H3 H4)
    as (resp & e & _ & _ & _ & Hcd & _ & _ & _ & Htm & _).
  split; [exact H1|]. split; [exact H4|]. split; [exact Hcd | exact Htm].
Defined.

(** X13 on a concrete run: the page was opened from a bare link and the
    resend is accepted. *)
Lemma effect_replaces_resent_notice_witness :
  ticking reopened = true
  ∧ cooldown (page reopened) = 0
  ∧ email (page reopened) ≠ ""
  ∧ all_accepted (since reopened (dispatch host_ok bare_location ClickResend reopened)) = true
  ∧ message_msg (page (dispatch host_ok bare_location ClickResend reopened))
    = effect_message bare_location.
Proof.
  assert (H1 : ticking reopened = true) by (vm_compute; reflexivity).
  assert (H2 : cooldown (page reopened) = 0) by (vm_compute; reflexivity).
  assert (H3 : email (page reopened) ≠ "") by (vm_compute; discriminate).
  assert (H4 : all_accepted (since reopened (dispatch host_ok bare_location ClickResend reopened))
               = true) by (vm_compute; reflexivity).
  destruct (effect_replaces_resent_notice host_ok bare_location reopened H1 H2 H3 H4)
    as (Hm & _).
  split; [exact H1|]. split; [exact H2|]. split; [exact H3|]. split; [exact H4 | exact Hm].
Defined.

(** X14 on a concrete run: sixty seconds after the resend of the opened
    page. *)
Lemma resend_allowed_again_after_sixty_seconds_witness :
  ticking page_shown = true
  ∧ cooldown (page page_shown) = 0
  ∧ email (page page_shown) ≠ ""
  ∧ all_accepted (since page_shown (dispatch host_ok verify_location ClickResend page_shown))
    = true
  ∧ cooldown
      (page (ticks host_ok verify_location 60
               (dispatch host_ok verify_location ClickResend page_shown)))
    = 0.
Proof.
  assert (H1 : ticking page_shown = true) by (vm_compute; reflexivity).
  assert (H2 : cooldown (page page_shown) = 0) by (vm_compute; reflexivity).
  assert (H3 : email (page page_shown) ≠ "") by (vm_compute; discriminate).
  assert (H4 : all_accepted (since page_shown (dispatch host_ok verify_location ClickResend page_shown))
               = true) by (vm_compute; reflexivity).
  pose proof (resend_allowed_again_after_sixty_seconds host_ok verify_location page_shown
                H1 H2 H3 H4) as H.
  cbv zeta in H. destruct H as (H0 & _).
  split; [exact H1|]. split; [exact H2|]. split; [exact H3|]. split; [exact H4 | exact H0].
Defined.

(** X15 on a concrete run: the impatient user of the opened page, who
    never leaves it. *)
Lemma page_keeps_one_cooldown_timer_witness :
  ticking page_shown = true
  ∧ navigations (since page_shown (run host_ok verify_location impatient page_shown)) = []
  ∧ ∃ c, page_effect (run host_ok verify_location impatient page_shown)
         = Some (cooldown (page (run host_ok verify_location impatient page_shown)), c).
Proof.
  assert (H1 : ticking page_shown = true) by (vm_compute; reflexivity).
  assert (H2 : navigations (since page_shown (run host_ok verify_location impatient page_shown))
               = []) by (vm_compute; reflexivity).
  split; [exact H1|]. split; [exact H2|].
  exact (proj1 (page_keeps_one_cooldown_timer host_ok verify_location impatient page_shown
                  H1 H2)).
Defined.

(** X16 on a concrete run: the page was opened from a bare link, a code
    was resent, and the code typed is accepted within the minute. *)
Lemma second_after_success_reruns_effect_witness :
  ticking code_typed = true
  ∧ 0 < cooldown (page code_typed)
  ∧ signed_up (since code_typed (dispatch host_ok bare_location Submit code_typed)) = true
  ∧ navigations
      (since (dispatch host_ok bare_location Submit code_typed)
         (tick host_ok bare_location (dispatch host_ok bare_location Submit code_typed)))
    = [("/signup", NoState)].
Proof.
  assert (H1 : ticking code_typed = true) by (vm_compute; reflexivity).
  assert (H2 : 0 < cooldown (page code_typed)) by (vm_compute; reflexivity).
  assert (H3 : signed_up (since code_typed (dispatch host_ok bare_location Submit code_typed))
               = true) by (vm_compute; reflexivity).
  destruct (second_after_success_reruns_effect host_ok bare_location code_typed H1 H2 H3)
    as (_ & Hnav).
  split; [exact H1|]. split; [exact H2|]. split; [exact H3|].
  exact (proj1 Hnav).
Defined.

(** X17 on a concrete state: the lookup is over and found no session. *)
Lemma anonymous_sees_no_protected_page_witness :
  (auth_loading {| user := None; session := None; auth_loading := false |} = true
   ∨ user {| user := None; session := None; auth_loading := false |} = None)
  ∧ ¬ ∃ path el,
        (path, el) ∈ routes {| user := None; session := None; auth_loading := false |}
                       (MkLocation "/data" NoState)
        ∧ shows el = Some DataPage.
Proof.
  assert (H : auth_loading {| user := None; session := None; auth_loading := false |} = true
              ∨ user {| user := None; session := None; auth_loading := false |} = None)
    by (right; reflexivity).
  split; [exact H|]. intros (path & el & Hin & Hshow).
  pose proof (proj1 (anonymous_sees_no_protected_page
                       {| user := None; session := None; auth_loading := false |}
                       (MkLocation "/data" NoState)) H path el DataPage Hin Hshow) as Hp.
  repeat (apply elem_of_cons in Hp as [Hp|Hp]; [discriminate Hp|]).
  by apply elem_of_nil in Hp.
Defined.

End MoreRuns.

(** ** The lookup that fails through its [error] field *)

Section LookupError.
Context (host : Host).

(** What the sibling operations do with an [error] field, here
    [signIn]: it is logged and thrown. *)
Lemma sign_in_logs_error_field (w : World) (email password : string)
    (r : Resolved) (a : AuthError) :
  respond host (trace w ++ [Console LLog "Signing in user with email:" (ArgStr email)])
    (SignInWithPassword email password) = Resolve r →
  error r = Some a →
  (AuthContext.signIn host email password w).1 = Throw (ProviderError a)
  ∧ Console LError "Sign in error:" (ArgExn (ProviderError a))
      ∈ since w (AuthContext.signIn host email password w).2.
Proof.
  intros Hr Ha. unfold AuthContext.signIn. model_unfold. simpl. rewrite Hr. simpl.
  rewrite Ha. simpl. split; [done|].
  erewrite since_app by trace_list.
  do 2 apply list_elem_of_further. apply list_elem_of_here.
Qed.

(** C9, as the code behaves: [checkUser] reads [data] alone. A lookup
    that comes back with its [error] field set has failed, but nothing
    is logged for it: no [console.error] is performed, the store takes
    the session of the response and goes on as after a lookup that
    succeeded. Only a rejected lookup reaches the [catch] that logs. *)
Theorem lookup_error_is_not_logged (w : World) (r : Resolved) (a : AuthError) :
  respond host (trace w) GetSession = Resolve r →
  error r = Some a →
  failure (respond host (trace w) GetSession) = Some (ProviderError a)
  ∧ since w (AuthContext.mount host w)
    = [ Call GetSession (Resolve r);
        State (SetSession (data_session r));
        State (SetUser (session_user <$> data_session r));
        State (SetAuthLoading false);
        Subscribed (next_id w) ]
  ∧ (∀ lvl label arg, Console lvl label arg ∉ since w (AuthContext.mount host w))
  ∧ auth (AuthContext.mount host w)
    = {| user := session_user <$> data_session r; session := data_session r;
         auth_loading := false |}.
Proof.
  intros Hr Ha. split; [by rewrite Hr; simpl; rewrite Ha|].
  assert (Hs : since w (AuthContext.mount host w)
               = [ Call GetSession (Resolve r);
                   State (SetSession (data_session r));
                   State (SetUser (session_user <$> data_session r));
                   State (SetAuthLoading false);
                   Subscribed (next_id w) ]).
  { unfold AuthContext.mount, AuthContext.effect, AuthContext.unawaited, AuthContext.checkUser.
    model_unfold. simpl. rewrite Hr. simpl. apply since_app. trace_list. }
  split; [exact Hs|]. split.
  - intros lvl label arg Hin. rewrite Hs in Hin.
    repeat (apply elem_of_cons in Hin as [Hin|Hin]; [discriminate Hin|]).
    by apply elem_of_nil in Hin.
  - unfold AuthContext.mount, AuthContext.effect, AuthContext.unawaited, AuthContext.checkUser.
    model_unfold. simpl. rewrite Hr. reflexivity.
Qed.

End LookupError.

Section LookupErrorRun.
Import Samples MoreScenarios.

(** C9 on a concrete run: the lookup resolves with
    [{ data: { session: null }, error }]. *)
Lemma lookup_error_is_not_logged_witness :
  respond host_lookup_error (trace empty_world) GetSession
  = Resolve {| data_session := None; data := VNull; error := Some lookup_error |}
  ∧ failure (respond host_lookup_error (trace empty_world) GetSession)
    = Some (ProviderError lookup_error)
  ∧ since empty_world (AuthContext.mount host_lookup_error empty_world)
    = [ Call GetSession
          (Resolve {| data_session := None; data := VNull; error := Some lookup_error |});
        State (SetSession None);
        State (SetUser None);
        State (SetAuthLoading false);
        Subscribed 0 ].
Proof.
  assert (H : respond host_lookup_error (trace empty_world) GetSession
              = Resolve {| data_session := None; data := VNull; error := Some lookup_error |})
    by reflexivity.
  destruct (lookup_error_is_not_logged host_lookup_error empty_world _ lookup_error H eq_refl)
    as (Hf & Hs & _).
  split; [exact H|]. split; [exact Hf | exact Hs].
Defined.

End LookupErrorRun.
